(** * fastai/conv_learner.py: a shallow embedding and its properties

    The file follows [src/fastai/conv_learner.py]: the table [model_meta],
    the class [ConvnetBuilder] (the pretrained backbone cut and topped with
    a new fully-connected head) and the class [ConvLearner] (the learner
    that caches the backbone's activations on disk and freezes or
    unfreezes layer groups).

    Python objects are mutable and shared.  A module of the network is a
    value carrying the identity of the object it stands for, and everything
    mutable lives in one explicit [World]: the object allocator, the set of
    frozen modules, the arrays on disk and the log of calls.  Methods are
    computations in a state-and-exception monad over that world. *)

From Stdlib Require Import Floats.PrimFloat ZArith Ascii.
From stdpp Require Import gmap strings list pretty.

Local Open Scope Z_scope.

(** ** Python values *)

Inductive PyExc : Type :=
| IndexError
| AttributeError (attr : string)
| FileNotFoundError (p : string)
| ValueError
| TypeError.

Inductive Result (A : Type) : Type :=
| Ok (a : A)
| Raise (e : PyExc).
Arguments Ok {A} a.
Arguments Raise {A} e.

(** [bool(p)] of a Python float: false exactly for [0.0] and [-0.0]. *)
Definition truthy (p : float) : bool := negb (PrimFloat.eqb p 0%float).

(** Bounds of a slice over a sequence of length [n], as Python clips them. *)
Definition slice_bound (n : nat) (i : Z) : nat :=
  if i <? 0 then Z.to_nat (Z.max (Z.of_nat n + i) 0)
  else Nat.min (Z.to_nat i) n.

(** [l[i:j]], [l[:j]] and [l[i:]]. *)
Definition py_slice {A} (l : list A) (i j : Z) : list A :=
  let lo := slice_bound (length l) i in
  let hi := slice_bound (length l) j in
  take (hi - lo)%nat (drop lo l).

Definition py_slice_to {A} (l : list A) (j : Z) : list A :=
  take (slice_bound (length l) j) l.

Definition py_slice_from {A} (l : list A) (i : Z) : list A :=
  drop (slice_bound (length l) i) l.

(** [l[i]], raising [IndexError] out of range; a negative index counts from
    the end. *)
Definition py_index {A} (l : list A) (i : Z) : Result A :=
  let k := if i <? 0 then Z.of_nat (length l) + i else i in
  if k <? 0 then Raise IndexError
  else match l !! Z.to_nat k with
       | Some x => Ok x
       | None => Raise IndexError
       end.

(** ** Network modules *)

Definition Tensor : Type := list float.

Inductive Kind : Type :=
| BatchNorm1d (num_features : Z)
| Dropout (p : float)
| Linear (in_features out_features : Z)
| ReLU
| Sigmoid
| LogSoftmax
| AdaptiveConcatPool2d
| Flatten
| Sequential
| Pretrained (name : string).

(** A module object: its identity, what it is, and its child modules. *)
#[warnings="-register-all"]
Inductive Module : Type :=
| Mod (id : nat) (kind : Kind) (subs : list Module).

Definition id_of (m : Module) : nat := let '(Mod i _ _) := m in i.
Definition kind_of (m : Module) : Kind := let '(Mod _ k _) := m in k.

(** Modelled from the spec: [children] of [fastai/core.py], which is not
    under src/; for a module it is [list(m.children())]. *)
Definition children (m : Module) : list Module := let '(Mod _ _ cs) := m in cs.

(** Identities of a module and of everything below it, the module first
    (the order in which [apply_leaf] visits them). *)
Fixpoint module_ids (m : Module) : list nat :=
  match m with
  | Mod i _ cs => i :: flat_map module_ids cs
  end.

(** [bool(m)] of a module: containers are judged by their length, any other
    module is true. *)
Definition truthy_module (m : Module) : bool :=
  match kind_of m with
  | Sequential => negb (Nat.eqb (length (children m)) 0)
  | _ => true
  end.

(** What [get_layer_groups] hands out: a plain list of modules, or one
    module. *)
Inductive LayerGroup : Type :=
| LGList (ms : list Module)
| LGModule (m : Module).

Definition group_ids (g : LayerGroup) : list nat :=
  match g with
  | LGList ms => flat_map module_ids ms
  | LGModule m => module_ids m
  end.

(** ** The world *)

Inductive Call : Type :=
| CFreezeTo (n : Z)
| CFreeze
| CUnfreeze
| CGetActivations (force : bool)
| CSaveFc1
| CPredictToBcolz (arr : string)
| CSetData (precompute : bool)
| CSummary.

Record World : Type := mkWorld {
  next_id : nat;                       (* next fresh object identity *)
  frozen : gset nat;                   (* modules whose trainable flag is off *)
  disk : gmap string (list Tensor);    (* bcolz arrays, by root directory *)
  calls : list Call                    (* calls made so far, oldest first *)
}.

Definition set_next_id (n : nat) (w : World) : World :=
  mkWorld n (frozen w) (disk w) (calls w).
Definition set_frozen (s : gset nat) (w : World) : World :=
  mkWorld (next_id w) s (disk w) (calls w).
Definition set_disk (d : gmap string (list Tensor)) (w : World) : World :=
  mkWorld (next_id w) (frozen w) d (calls w).
Definition set_calls (cs : list Call) (w : World) : World :=
  mkWorld (next_id w) (frozen w) (disk w) cs.

(** ** The monad of methods: world passing with exceptions *)

Definition M (A : Type) : Type := World -> Result (A * World).

Definition ret {A} (a : A) : M A := fun w => Ok (a, w).

Definition bind {A B} (m : M A) (f : A -> M B) : M B :=
  fun w => match m w with
           | Ok (a, w') => f a w'
           | Raise e => Raise e
           end.

Definition raise {A} (e : PyExc) : M A := fun _ => Raise e.

Definition lift {A} (r : Result A) : M A :=
  fun w => match r with Ok a => Ok (a, w) | Raise e => Raise e end.

Definition get_world : M World := fun w => Ok (w, w).
Definition modify (f : World -> World) : M unit := fun w => Ok (tt, f w).

Declare Scope py_scope.
Delimit Scope py_scope with py.
Notation "x <- m ;; k" := (bind m (fun x => k))
  (at level 100, m at next level, right associativity) : py_scope.
Notation "m ;;; k" := (bind m (fun _ => k))
  (at level 100, right associativity) : py_scope.
Local Open Scope py_scope.

(** Entering a method leaves a mark in the log. *)
Definition log (c : Call) : M unit :=
  modify (fun w => set_calls (calls w ++ [c]) w).

(** Creating a module object allocates a fresh identity. *)
Definition new (k : Kind) (cs : list Module) : M Module :=
  fun w => Ok (Mod (next_id w) k cs, set_next_id (S (next_id w)) w).

(** ** The table of architectures *)

(** The model creation functions the module knows by name; any other
    function is [other_arch] with its [__name__]. *)
Inductive Arch : Type :=
| resnet18 | resnet34 | resnet50 | resnet101 | resnet152
| vgg16 | vgg19
| resnext50 | resnext101 | resnext101_64
| wrn | inceptionresnet_2 | inception_4
| dn121 | dn161 | dn169 | dn201
| other_arch (name : string).

(** [model_meta]: for each known architecture, where to cut it and where
    to split its layers into learning-rate groups. *)
Definition model_meta (f : Arch) : option (Z * Z) :=
  match f with
  | resnet18 | resnet34 | resnet50 | resnet101 | resnet152 => Some (8, 6)
  | vgg16 | vgg19 => Some (0, 22)
  | resnext50 | resnext101 | resnext101_64 => Some (8, 6)
  | wrn => Some (8, 6)
  | inceptionresnet_2 => Some (-2, 9)
  | inception_4 => Some (-1, 9)
  | dn121 | dn161 | dn169 | dn201 => Some (0, 7)
  | other_arch _ => None
  end.

Definition model_features (f : Arch) : option Z :=
  match f with
  | inception_4 => Some 3072
  | dn121 => Some 2048
  | dn161 => Some 4416
  | _ => None
  end.

(** [f.__name__]. *)
Definition fn_name (f : Arch) : string :=
  match f with
  | resnet18 => "resnet18" | resnet34 => "resnet34" | resnet50 => "resnet50"
  | resnet101 => "resnet101" | resnet152 => "resnet152"
  | vgg16 => "vgg16" | vgg19 => "vgg19"
  | resnext50 => "resnext50" | resnext101 => "resnext101"
  | resnext101_64 => "resnext101_64"
  | wrn => "wrn" | inceptionresnet_2 => "inceptionresnet_2"
  | inception_4 => "inception_4"
  | dn121 => "dn121" | dn161 => "dn161" | dn169 => "dn169" | dn201 => "dn201"
  | other_arch name => name
  end.

(** Modelled from the spec: [split_by_idxs] of [fastai/core.py], which is
    not under src/.  It splits a sequence into groups at the given indexes:
    [seq[last:idx]] for each index in turn, and then the rest [seq[last:]]. *)
Fixpoint split_by_idxs_from {A} (seq : list A) (last : Z) (idxs : list Z)
  : list (list A) :=
  match idxs with
  | [] => [py_slice_from seq last]
  | idx :: idxs' => py_slice seq last idx :: split_by_idxs_from seq idx idxs'
  end.

Definition split_by_idxs {A} (seq : list A) (idxs : list Z) : list (list A) :=
  split_by_idxs_from seq 0 idxs.

(** * class ConvnetBuilder *)

Module ConvnetBuilder.

(** The [dropout_percs] argument: one number, or a list of numbers. *)
Inductive DropoutArg : Type :=
| DropNum (p : float)
| DropList (ps : list float).

Record t : Type := mk {
  model_creation_function : Arch;
  last_layer_size : Z;
  is_multi : bool;
  is_reg : bool;
  xtra_cut : Z;
  dropout_percs : list float;
  xtra_fc : list Z;
  lr_cut : Z;
  nf : Z;
  top_model : Module;
  n_fc : nat;
  fc_model : Module;
  model : Module
}.

(** [name]: the architecture's name and the extra cut. *)
Definition name (self : t) : string :=
  fn_name (model_creation_function self) +:+ "_" +:+ pretty (xtra_cut self).

(** [nn.Dropout(p=p)]: torch refuses a probability below 0 or above 1
    with a [ValueError]; any other number, a NaN too, makes the layer. *)
Definition nn_Dropout (p : float) : M Module :=
  if PrimFloat.ltb p 0 || PrimFloat.ltb 1 p then raise ValueError
  else new (Dropout p) [].

(** [create_fc_layer(ni, nf, p, actn)]: batch norm, dropout when [p] is
    true, linear, and the activation when there is one. *)
Definition create_fc_layer (ni nf : Z) (p : float) (actn : option Module)
  : M (list Module) :=
  bn <- new (BatchNorm1d ni) [] ;;
  let res := [bn] in
  res <- (if truthy p
          then (d <- nn_Dropout p ;; ret (res ++ [d]))
          else ret res) ;;
  lin <- new (Linear ni nf) [] ;;
  let res := res ++ [lin] in
  ret (match actn with
       | Some a => if truthy_module a then res ++ [a] else res
       | None => res
       end).

(** The loop of [get_fc_layers] over [enumerate(self.xtra_fc)], from index
    [i] on, with the running [ni] and [res]. *)
Fixpoint fc_hidden (dropout_percs : list float) (xtra_fc : list Z)
    (i : Z) (ni : Z) (res : list Module) : M (list Module * Z) :=
  match xtra_fc with
  | [] => ret (res, ni)
  | nf :: rest =>
      p <- lift (py_index dropout_percs i) ;;
      actn <- new ReLU [] ;;
      blk <- create_fc_layer ni nf p (Some actn) ;;
      fc_hidden dropout_percs rest (i + 1) nf (res ++ blk)
  end.

(** [get_fc_layers], on the attributes it reads. *)
Definition get_fc_layers_of (nf : Z) (xtra_fc : list Z)
    (dropout_percs : list float) (is_multi is_reg : bool)
    (last_layer_size : Z) : M (list Module) :=
  hidden <- fc_hidden dropout_percs xtra_fc 0 nf [] ;;
  let '(res, ni) := hidden in
  final_actn <- (if is_multi then new Sigmoid [] else new LogSoftmax []) ;;
  let final_actn := if is_reg then None else Some final_actn in
  p <- lift (py_index dropout_percs (-1)) ;;
  blk <- create_fc_layer ni last_layer_size p final_actn ;;
  ret (res ++ blk).

Definition get_fc_layers (self : t) : M (list Module) :=
  get_fc_layers_of (nf self) (xtra_fc self) (dropout_percs self)
    (is_multi self) (is_reg self) (last_layer_size self).

(** [get_layer_groups(do_fc)]. *)
Definition get_layer_groups (self : t) (do_fc : bool) : list LayerGroup :=
  if do_fc then [LGModule (fc_model self)]
  else
    let idxs := [lr_cut self] in
    let c := children (top_model self) in
    let c := if Nat.eqb (length c) 3
             then match c with
                  | c0 :: c1 => children c0 ++ c1
                  | [] => c
                  end
             else c in
    let lgs := split_by_idxs c idxs in
    map LGList lgs ++ [LGModule (fc_model self)].

Section Init.
(** What [__init__] calls outside this file: the model creation function
    applied to its [pre] flag, [cut_model] and [num_features], which
    returns [None] when it finds no layer that has a number of features. *)
Variable create : Arch -> bool -> M Module.
Variable cut_model : Module -> Z -> list Module.
Variable num_features : list Module -> option Z.

(** The cut point and the learning-rate split of an architecture. *)
Definition cut_of (f : Arch) (xtra_cut : Z) : Z * Z :=
  let '(cut, lr_cut) :=
    match model_meta f with
    | Some meta => meta
    | None => (0, 0)
    end in
  (cut - xtra_cut, lr_cut).

Definition __init__ (model_creation_function : Arch) (last_layer_size : Z)
    (is_multi is_reg : bool) (dropout_percs : option DropoutArg)
    (xtra_fc : option (list Z)) (xtra_cut : Z) : M t :=
  let dropout_percs :=
    match dropout_percs with
    | None => DropList [0.25%float; 0.5%float]
    | Some d => d
    end in
  let xtra_fc := match xtra_fc with None => [512] | Some l => l end in
  let '(cut, lr_cut) := cut_of model_creation_function xtra_cut in
  net <- create model_creation_function true ;;
  let layers := cut_model net cut in
  nf <- match model_features model_creation_function with
        | Some n => ret n
        | None =>
            (* [None*2] is a [TypeError] *)
            match num_features layers with
            | Some n => ret (n * 2)
            | None => raise TypeError
            end
        end ;;
  pool <- new AdaptiveConcatPool2d [] ;;
  flat <- new Flatten [] ;;
  let layers := layers ++ [pool; flat] in
  top_model <- new Sequential layers ;;
  let n_fc := (length xtra_fc + 1)%nat in
  let dropout_percs :=
    match dropout_percs with
    | DropList l => l
    | DropNum p => repeat p n_fc
    end in
  fc_layers <- get_fc_layers_of nf xtra_fc dropout_percs is_multi is_reg
                 last_layer_size ;;
  let n_fc := length fc_layers in
  fc_model <- new Sequential fc_layers ;;
  model <- new Sequential (layers ++ fc_layers) ;;
  ret (mk model_creation_function last_layer_size is_multi is_reg xtra_cut
         dropout_percs xtra_fc lr_cut nf top_model n_fc fc_model model).
End Init.

End ConvnetBuilder.

(** * The data a learner trains on *)

Module Data.

Definition Dataset : Type := list Tensor.

(** Modelled from the spec: the data classes of [fastai/dataset.py] and
    [fastai/dataloader.py], which are not under src/.  A data loader has the
    dataset it reads and the batches of inputs it yields when iterated. *)
Record DataLoader : Type := mkDL {
  dataset : Dataset;
  batches : list (list Tensor)
}.

Record t : Type := mk {
  path : string;
  sz : Z;
  bs : Z;
  c : Z;
  classes : list string;
  is_multi : bool;
  is_reg : bool;
  train_ds : Dataset;
  val_ds : Dataset;
  fix_dl : DataLoader;
  val_dl : DataLoader;
  test_dl : option DataLoader;
  train_y : list Z;
  val_y : list Z
}.

(** [bool(dl)] of a data loader that may be [None]: a loader has a
    [__len__], its number of batches, so a loader without batches is false
    as [None] is. *)
Definition dl_truthy (dl : option DataLoader) : bool :=
  match dl with
  | None => false
  | Some l => negb (Nat.eqb (length (batches l)) 0)
  end.

(** [test_ds]: the dataset of the test loader. *)
Definition test_ds (d : t) : Result Dataset :=
  match test_dl d with
  | Some l => Ok (dataset l)
  | None => Raise (AttributeError "dataset")
  end.

(** Iterating over a loader that may be [None]. *)
Definition iterable (dl : option DataLoader) : Result DataLoader :=
  match dl with
  | Some l => Ok l
  | None => Raise TypeError
  end.

End Data.

(** ** Paths and arrays on disk *)

Fixpoint ends_with_slash (s : string) : bool :=
  match s with
  | EmptyString => false
  | String a EmptyString => Ascii.eqb a "/"%char
  | String _ rest => ends_with_slash rest
  end.

(** [os.path.join(a, b)] on a POSIX system. *)
Definition os_path_join (a b : string) : string :=
  if String.prefix "/" b then b
  else if String.eqb a "" || ends_with_slash a then a +:+ b
  else a +:+ "/" +:+ b.

Definition os_path_exists (p : string) : M bool :=
  fun w => Ok (bool_decide (is_Some (disk w !! p)), w).

(** [bcolz.open(p)]: a handle on the array stored under [p]. *)
Definition bcolz_open (p : string) : M string :=
  fun w => match disk w !! p with
           | Some _ => Ok (p, w)
           | None => Raise (FileNotFoundError p)
           end.

(** [len(arr)] of an array on disk. *)
Definition bcolz_len (arr : string) : M nat :=
  fun w => Ok (length (default [] (disk w !! arr)), w).

(** [[f(x) for x in l]] with effects, left to right. *)
Fixpoint map_M {A B} (f : A -> M B) (l : list A) : M (list B) :=
  match l with
  | [] => ret []
  | x :: rest => y <- f x ;; ys <- map_M f rest ;; ret (y :: ys)
  end.

(** [for x in l: f(x)]. *)
Fixpoint for_M {A} (l : list A) (f : A -> M unit) : M unit :=
  match l with
  | [] => ret tt
  | x :: rest => f x ;;; for_M rest f
  end.

(** * class ConvLearner *)

Module ConvLearner.

Inductive Loss : Type := binary_cross_entropy | nll_loss | l1_loss.

Inductive Metric : Type :=
| accuracy
| accuracy_thresh (thresh : float).

(** The keyword arguments handed on to the base class. *)
Record Kwargs : Type := mkKwargs {
  kw_metrics : option (list Metric);
  kw_tmp_path : string;
  kw_crit : option Loss
}.

Record t : Type := mk {
  precompute : bool;
  data_ : Data.t;
  models : ConvnetBuilder.t;
  metrics : option (list Metric);
  crit : option Loss;
  tmp_path : string;
  activations : option (list string);
  fc_data : option Data.t
}.

Definition set_precompute (b : bool) (self : t) : t :=
  mk b (data_ self) (models self) (metrics self) (crit self) (tmp_path self)
     (activations self) (fc_data self).
Definition set_data_ (d : Data.t) (self : t) : t :=
  mk (precompute self) d (models self) (metrics self) (crit self)
     (tmp_path self) (activations self) (fc_data self).
Definition set_metrics (ms : option (list Metric)) (self : t) : t :=
  mk (precompute self) (data_ self) (models self) ms (crit self)
     (tmp_path self) (activations self) (fc_data self).
Definition set_crit (l : option Loss) (self : t) : t :=
  mk (precompute self) (data_ self) (models self) (metrics self) l
     (tmp_path self) (activations self) (fc_data self).
Definition set_activations (a : option (list string)) (self : t) : t :=
  mk (precompute self) (data_ self) (models self) (metrics self) (crit self)
     (tmp_path self) a (fc_data self).
Definition set_fc_data (d : option Data.t) (self : t) : t :=
  mk (precompute self) (data_ self) (models self) (metrics self) (crit self)
     (tmp_path self) (activations self) d.

(** The [model] property. *)
Definition model (self : t) : Module :=
  if precompute self then ConvnetBuilder.fc_model (models self)
  else ConvnetBuilder.model (models self).

(** The [data] property; [fc_data] is an attribute only once [save_fc1]
    has set it. *)
Definition data (self : t) : Result Data.t :=
  if precompute self
  then match fc_data self with
       | Some d => Ok d
       | None => Raise (AttributeError "fc_data")
       end
  else Ok (data_ self).

Definition get_layer_groups (self : t) : list LayerGroup :=
  ConvnetBuilder.get_layer_groups (models self) (precompute self).

(** [create_empty_bcolz(n, name)]: a new, empty array under [name],
    replacing what was there. *)
Definition create_empty_bcolz (self : t) (n : Z) (name : string) : M string :=
  modify (fun w => set_disk (<[name := []]> (disk w)) w) ;;;
  ret name.

(** ** The base class [Learner] *)

(** Modelled from the spec: [Learner.__init__] of [fastai/learner.py], which
    is not under src/.  It keeps the data, the models, the metrics and the
    loss it is given, and places the temporary directory under the data's
    path. *)
Definition Learner_init (precompute : bool) (d : Data.t)
    (models : ConvnetBuilder.t) (kwargs : Kwargs) : t :=
  mk precompute d models (kw_metrics kwargs) (kw_crit kwargs)
     (os_path_join (Data.path d) (kw_tmp_path kwargs)) None None.

(** Modelled from the spec: [set_trainable(l, b)] of [fastai/core.py], which
    is not under src/.  It sets the trainable flag of every module of the
    group [l], the modules below them included. *)
Definition set_trainable (l : LayerGroup) (b : bool) : M unit :=
  modify (fun w =>
    set_frozen (if b then frozen w ∖ list_to_set (group_ids l)
                else frozen w ∪ list_to_set (group_ids l)) w).

(** Modelled from the spec: [Learner.freeze_to(n)] of [fastai/learner.py],
    which is not under src/.  It asks the learner for its layer groups
    ([get_layer_groups], which [ConvLearner] overrides), freezes every group
    and makes the groups from [n] on trainable again: [freeze_to(-1)] leaves
    only the last group trainable, [freeze_to(0)] all of them. *)
Definition freeze_to (self : t) (n : Z) : M unit :=
  log (CFreezeTo n) ;;;
  let c := get_layer_groups self in
  for_M c (fun l => set_trainable l false) ;;;
  for_M (py_slice_from c n) (fun l => set_trainable l true).

(** [freeze]: all but the very last layer group. *)
Definition freeze (self : t) : M unit :=
  log CFreeze ;;;
  freeze_to self (-1).

(** [unfreeze]. *)
Definition unfreeze (self : t) : M t :=
  log CUnfreeze ;;;
  freeze_to self 0 ;;;
  ret (set_precompute false self).

Section Methods.
(** The network's forward pass on one input, in evaluation mode. *)
Variable forward : Module -> Tensor -> Tensor.
(** [ImageClassifierData.from_arrays(path, trn, val, bs, classes, test)],
    which may read the arrays it is given. *)
Variable from_arrays :
  string -> string * list Z -> string * list Z -> Z -> list string ->
  option string -> World -> Data.t.
(** [Learner.summary]. *)
Variable Learner_summary : t -> M (t * string).
(** What [ConvnetBuilder.__init__] calls. *)
Variable create : Arch -> bool -> M Module.
Variable cut_model : Module -> Z -> list Module.
Variable num_features : list Module -> option Z.

(** Modelled from the spec: [predict_to_bcolz(m, gen, arr)] of
    [fastai/model.py], which is not under src/.  It empties the array, then
    appends the model's output for every batch the loader yields. *)
Definition predict_to_bcolz (m : Module) (gen : Data.DataLoader)
    (arr : string) : M unit :=
  log (CPredictToBcolz arr) ;;;
  modify (fun w =>
    set_disk (<[arr := concat (map (map (forward m)) (Data.batches gen))]>
                (disk w)) w).

Definition summary (self : t) : M (t * string) :=
  log CSummary ;;;
  let temp := precompute self in
  let self := set_precompute false self in
  r <- Learner_summary self ;;
  let '(self, res) := r in
  let self := set_precompute temp self in
  ret (self, res).

Definition get_activations (self : t) (force : bool) : M t :=
  log (CGetActivations force) ;;;
  d <- lift (data self) ;;
  let tmpl := "_" +:+ ConvnetBuilder.name (models self) +:+ "_"
              +:+ pretty (Data.sz d) +:+ ".bc" in
  let names := map (fun p => os_path_join (tmp_path self) (p +:+ tmpl))
                   ["x_act"; "x_act_val"; "x_act_test"] in
  n0 <- lift (py_index names 0) ;;
  ex <- os_path_exists n0 ;;
  acts <- (if ex && negb force
           then map_M bcolz_open names
           else map_M (create_empty_bcolz self
                         (ConvnetBuilder.nf (models self))) names) ;;
  ret (set_activations (Some acts) self).

(** [len(self.activations[i])]. *)
Definition len_activation (self : t) (i : Z) : M nat :=
  match activations self with
  | Some acts => a <- lift (py_index acts i) ;; bcolz_len a
  | None => raise (AttributeError "activations")
  end.

Definition save_fc1 (self : t) : M t :=
  log CSaveFc1 ;;;
  self <- get_activations self false ;;
  unpacked <- match activations self with
              | Some [a; v; t] => ret (a, v, t)
              | Some _ => raise ValueError
              | None => raise (AttributeError "activations")
              end ;;
  let '(activations, val_activations, test_activations) := unpacked in
  let m := ConvnetBuilder.top_model (models self) in
  d <- lift (data self) ;;
  n <- len_activation self 0 ;;
  (if negb (Nat.eqb n (length (Data.train_ds d)))
   then predict_to_bcolz m (Data.fix_dl d) activations
   else ret tt) ;;;
  n <- len_activation self 1 ;;
  (if negb (Nat.eqb n (length (Data.val_ds d)))
   then predict_to_bcolz m (Data.val_dl d) val_activations
   else ret tt) ;;;
  (if Data.dl_truthy (Data.test_dl d)
   then n <- len_activation self 2 ;;
        ds <- lift (Data.test_ds d) ;;
        if negb (Nat.eqb n (length ds))
        then (if Data.dl_truthy (Data.test_dl d)
              then dl <- lift (Data.iterable (Data.test_dl d)) ;;
                   predict_to_bcolz m dl test_activations
              else ret tt)
        else ret tt
   else ret tt) ;;;
  w <- get_world ;;
  let fc := from_arrays (Data.path d)
              (activations, Data.train_y d) (val_activations, Data.val_y d)
              (Data.bs d) (Data.classes d)
              (if Data.dl_truthy (Data.test_dl d)
               then Some test_activations else None) w in
  ret (set_fc_data (Some fc) self).

Definition __init__ (d : Data.t) (models : ConvnetBuilder.t)
    (precompute : bool) (kwargs : Kwargs) : M t :=
  let self := Learner_init false d models kwargs in
  let self := set_crit (Some (if Data.is_multi d then binary_cross_entropy
                              else nll_loss)) self in
  self <- (if Data.is_reg d then ret (set_crit (Some l1_loss) self)
           else match metrics self with
                | None =>
                    sd <- lift (data self) ;;
                    ret (set_metrics
                           (Some (if Data.is_multi sd
                                  then [accuracy_thresh 0.5%float]
                                  else [accuracy])) self)
                | Some _ => ret self
                end) ;;
  self <- (if precompute then save_fc1 self else ret self) ;;
  freeze self ;;;
  ret (set_precompute precompute self).

(** [pretrained]; [precompute] is [True] when the caller leaves it out. *)
Definition pretrained (model_constructor : Arch) (d : Data.t)
    (dropout_percs : option ConvnetBuilder.DropoutArg)
    (xtra_fc : option (list Z)) (xtra_cut : Z) (precompute : bool)
    (kwargs : Kwargs) : M t :=
  models <- ConvnetBuilder.__init__ create cut_model num_features
              model_constructor (Data.c d) (Data.is_multi d) (Data.is_reg d)
              dropout_percs xtra_fc xtra_cut ;;
  __init__ d models precompute kwargs.

Definition set_data (self : t) (d : Data.t) (precompute : bool) : M t :=
  log (CSetData precompute) ;;;
  let self := set_data_ d self in
  if precompute
  then self <- unfreeze self ;;
       self <- save_fc1 self ;;
       freeze self ;;;
       ret (set_precompute true self)
  else freeze self ;;; ret self.
End Methods.

End ConvLearner.

(** * What the properties are stated with *)

(** ** The head, layer kind by layer kind *)

(** One block: batch norm, dropout only for a probability other than zero,
    linear, and the activation if any. *)
Definition block_kinds (ni nf : Z) (p : float) (actn : list Kind) : list Kind :=
  [BatchNorm1d ni] ++ (if truthy p then [Dropout p] else [])
    ++ [Linear ni nf] ++ actn.

(** The hidden blocks when every block has the dropout probability [p]. *)
Fixpoint hidden_kinds (ni : Z) (xtra_fc : list Z) (p : float) : list Kind :=
  match xtra_fc with
  | [] => []
  | nf :: rest => block_kinds ni nf p [ReLU] ++ hidden_kinds nf rest p
  end.

(** A block can be built with the probability [p]: it gets no dropout
    layer, or [p] is one that [nn.Dropout] accepts. *)
Definition dropout_ok (p : float) : bool :=
  negb (truthy p) || negb (PrimFloat.ltb p 0 || PrimFloat.ltb 1 p).

(** The final activation by task: none for a regression, sigmoid for a
    multi-label task, log-softmax for a single-label one. *)
Definition final_kinds (is_multi is_reg : bool) : list Kind :=
  if is_reg then []
  else if is_multi then [Sigmoid] else [LogSoftmax].

(** The children of [top_model] as [get_layer_groups] splits them: when
    there are exactly three, the first one is opened up. *)
Definition split_children (self : ConvnetBuilder.t) : list Module :=
  let c := children (ConvnetBuilder.top_model self) in
  if Nat.eqb (length c) 3
  then match c with
       | c0 :: c1 => children c0 ++ c1
       | [] => c
       end
  else c.

(** ** Order of calls in a log *)

Global Instance Call_eq_dec : EqDecision Call.
Proof. solve_decision. Defined.

(** Some call [a] of the log is followed, later on, by a call [b]. *)
Fixpoint before (a b : Call) (cs : list Call) : bool :=
  match cs with
  | [] => false
  | c :: rest =>
      if decide (c = a) then bool_decide (b ∈ rest) else before a b rest
  end.

(** The calls [save_fc1] makes below itself. *)
Definition is_cache_call (c : Call) : Prop :=
  match c with
  | CGetActivations _ | CPredictToBcolz _ => True
  | _ => False
  end.

(** ** Cached activations *)

(** The three array names [get_activations] builds, for a learner that
    reads the data [d]. *)
Definition activation_names (self : ConvLearner.t) (d : Data.t) : list string :=
  let tmpl := "_" +:+ ConvnetBuilder.name (ConvLearner.models self) +:+ "_"
              +:+ pretty (Data.sz d) +:+ ".bc" in
  map (fun p => os_path_join (ConvLearner.tmp_path self) (p +:+ tmpl))
      ["x_act"; "x_act_val"; "x_act_test"].

(** A loader yields one input for each item of a dataset of [n] items. *)
Definition covers (dl : Data.DataLoader) (n : nat) : Prop :=
  length (concat (Data.batches dl)) = n.

(** The loaders of [d] read their datasets in full. *)
Definition loaders_cover (d : Data.t) : Prop :=
  covers (Data.fix_dl d) (length (Data.train_ds d))
  ∧ covers (Data.val_dl d) (length (Data.val_ds d))
  ∧ ∀ dl, Data.test_dl d = Some dl → covers dl (length (Data.dataset dl)).

(** The world after [predict_to_bcolz] has written the rows [rows] to the
    array [arr]. *)
Definition predicted (arr : string) (rows : list Tensor) (w : World) : World :=
  set_disk (<[arr := rows]> (disk w)) (set_calls (calls w ++ [CPredictToBcolz arr]) w).

(** The stored length of the array [arr] is not the [n] of the dataset. *)
Definition stale (arr : string) (n : nat) (w : World) : bool :=
  negb (Nat.eqb (length (default [] (disk w !! arr))) n).

(** One step of [save_fc1]: the array [arr] is computed again only when it
    is stale. *)
Definition refill (arr : string) (rows : list Tensor) (n : nat) (w : World)
  : World :=
  if stale arr n w then predicted arr rows w else w.

(** The rows a loader produces through the model [m]. *)
Definition activation_rows (forward : Module -> Tensor -> Tensor) (m : Module)
    (dl : Data.DataLoader) : list Tensor :=
  concat (map (map (forward m)) (Data.batches dl)).

(** The three steps of [save_fc1] over the arrays [n0], [n1] and [n2]:
    training, validation and, with a test loader, test activations. *)
Definition fill_arrays (forward : Module -> Tensor -> Tensor) (m : Module)
    (d : Data.t) (n0 n1 n2 : string) (w : World) : World :=
  let rows := activation_rows forward m in
  let w := refill n0 (rows (Data.fix_dl d)) (length (Data.train_ds d)) w in
  let w := refill n1 (rows (Data.val_dl d)) (length (Data.val_ds d)) w in
  match Data.test_dl d with
  | Some dl =>
      if Data.dl_truthy (Some dl)
      then refill n2 (rows dl) (length (Data.dataset dl)) w
      else w
  | None => w
  end.

(** The calls of [predict_to_bcolz] that a [save_fc1] finding the arrays
    [n0], [n1], [n2] in the world [w] makes: one for each stale array. *)
Definition predict_calls (d : Data.t) (n0 n1 n2 : string) (w : World)
  : list Call :=
  (if stale n0 (length (Data.train_ds d)) w then [CPredictToBcolz n0] else [])
  ++ (if stale n1 (length (Data.val_ds d)) w then [CPredictToBcolz n1] else [])
  ++ match Data.test_dl d with
     | Some dl =>
         if Data.dl_truthy (Some dl) && stale n2 (length (Data.dataset dl)) w
         then [CPredictToBcolz n2] else []
     | None => []
     end.

(** The learner [save_fc1] returns: its activations are the three arrays
    and its [fc_data] is built from them. *)
Definition with_cache
    (from_arrays : string -> string * list Z -> string * list Z -> Z ->
                   list string -> option string -> World -> Data.t)
    (self : ConvLearner.t) (d : Data.t) (n0 n1 n2 : string) (w : World)
  : ConvLearner.t :=
  ConvLearner.set_fc_data
    (Some (from_arrays (Data.path d) (n0, Data.train_y d) (n1, Data.val_y d)
             (Data.bs d) (Data.classes d)
             (if Data.dl_truthy (Data.test_dl d) then Some n2 else None) w))
    (ConvLearner.set_activations (Some [n0; n1; n2]) self).

(** The learner [ConvLearner.__init__] has once the loss and the metrics
    are settled, before it caches or freezes anything. *)
Definition configured (d : Data.t) (models : ConvnetBuilder.t)
    (kwargs : ConvLearner.Kwargs) : ConvLearner.t :=
  let self := ConvLearner.Learner_init false d models kwargs in
  let self :=
    ConvLearner.set_crit
      (Some (if Data.is_multi d then ConvLearner.binary_cross_entropy
             else ConvLearner.nll_loss)) self in
  if Data.is_reg d
  then ConvLearner.set_crit (Some ConvLearner.l1_loss) self
  else match ConvLearner.metrics self with
       | None =>
           ConvLearner.set_metrics
             (Some (if Data.is_multi d
                    then [ConvLearner.accuracy_thresh 0.5%float]
                    else [ConvLearner.accuracy])) self
       | Some _ => self
       end.

(** Every module of every layer group is trainable. *)
Definition all_trainable (gs : list LayerGroup) (w : World) : Prop :=
  ∀ g i, g ∈ gs → i ∈ group_ids g → i ∉ frozen w.

(** * A small learner to run *)

Module Tiny.

(** [cut_model(m, cut)]: the first [cut] children, or the whole module as
    one layer when [cut] is zero. *)
Definition cut_model (m : Module) (cut : Z) : list Module :=
  if cut =? 0 then [m] else py_slice_to (children m) cut.

(** A network of four layers, whatever the architecture asked for. *)
Definition create (f : Arch) (pre : bool) : M Module :=
  c1 <- new (Pretrained "conv1") [] ;;
  c2 <- new (Pretrained "conv2") [] ;;
  c3 <- new (Pretrained "conv3") [] ;;
  c4 <- new (Pretrained "fc") [] ;;
  new (Pretrained (fn_name f)) [c1; c2; c3; c4].

Definition num_features (layers : list Module) : option Z := Some 512.

Definition forward (m : Module) (x : Tensor) : Tensor := x.

Definition loader (xs : list Tensor) : Data.DataLoader :=
  Data.mkDL xs (map (fun x => [x]) xs).

Definition from_arrays (path : string) (trn val : string * list Z) (bs : Z)
    (classes : list string) (test : option string) (w : World) : Data.t :=
  let rows a := default [] (disk w !! a) in
  Data.mk path 0 bs (Z.of_nat (length classes)) classes false false
    (rows trn.1) (rows val.1) (loader (rows trn.1)) (loader (rows val.1))
    (option_map (fun a => loader (rows a)) test) trn.2 val.2.

Definition Learner_summary (self : ConvLearner.t) : M (ConvLearner.t * string) :=
  ret (self, "Sequential").

Definition x1 : Tensor := [1%float].
Definition x2 : Tensor := [2%float].
Definition x3 : Tensor := [3%float].

(** Two training images, one validation image, no test set. *)
Definition data : Data.t :=
  Data.mk "data" 224 64 2 ["cat"; "dog"] false false [x1; x2] [x3]
    (loader [x1; x2]) (loader [x3]) None [0; 1] [1].

Definition kwargs : ConvLearner.Kwargs := ConvLearner.mkKwargs None "tmp" None.

Definition world : World := mkWorld 0 ∅ ∅ [].

(** [ConvnetBuilder(tiny, 2, False, False, xtra_cut=1)]. *)
Definition builder : M ConvnetBuilder.t :=
  ConvnetBuilder.__init__ create cut_model num_features
    (other_arch "tiny") 2 false false None None 1.

(** The builder that call returns: the network without its last layer,
    the adapter, and the default head of two blocks. *)
Definition backbone : list Module :=
  [Mod 0 (Pretrained "conv1") []; Mod 1 (Pretrained "conv2") [];
   Mod 2 (Pretrained "conv3") []].

Definition adapter : list Module :=
  [Mod 5 AdaptiveConcatPool2d []; Mod 6 Flatten []].

Definition head : list Module :=
  [Mod 9 (BatchNorm1d 1024) []; Mod 10 (Dropout 0.25%float) [];
   Mod 11 (Linear 1024 512) []; Mod 8 ReLU [];
   Mod 13 (BatchNorm1d 512) []; Mod 14 (Dropout 0.5%float) [];
   Mod 15 (Linear 512 2) []; Mod 12 LogSoftmax []].

Definition models : ConvnetBuilder.t :=
  ConvnetBuilder.mk (other_arch "tiny") 2 false false 1
    [0.25%float; 0.5%float] [512] 0 1024
    (Mod 7 Sequential (backbone ++ adapter)) 8
    (Mod 16 Sequential head)
    (Mod 17 Sequential ((backbone ++ adapter) ++ head)).

(** The world once the builder is there. *)
Definition built : World := mkWorld 18 ∅ ∅ [].

(** [ConvLearner(data, models, precompute=True)]. *)
Definition learner : M ConvLearner.t :=
  ConvLearner.__init__ forward from_arrays data models true kwargs.

(** The learner as the base class leaves it, before any caching. *)
Definition plain : ConvLearner.t :=
  ConvLearner.Learner_init false data models kwargs.

End Tiny.


(** * More of what the properties are stated with *)

(** The list of dropout probabilities a builder ends up with, for a head
    of [n] blocks: the default pair, the list given, or the number given
    once for each block. *)
Definition dropout_list (dropout_percs : option ConvnetBuilder.DropoutArg)
    (n : nat) : list float :=
  match dropout_percs with
  | None => [0.25%float; 0.5%float]
  | Some (ConvnetBuilder.DropList l) => l
  | Some (ConvnetBuilder.DropNum p) => repeat p n
  end.

(** The hidden widths a builder ends up with. *)
Definition hidden_widths (xtra_fc : option (list Z)) : list Z :=
  match xtra_fc with
  | None => [512]
  | Some l => l
  end.

(** The number of features of the head's input: the architecture's entry
    of [model_features], or else twice what [num_features] finds in the
    layers of the backbone, if it finds any. *)
Definition features_of (num_features : list Module -> option Z) (f : Arch)
    (layers : list Module) : option Z :=
  match model_features f with
  | Some n => Some n
  | None => option_map (fun n => n * 2) (num_features layers)
  end.

(** The hidden blocks when block [i] has the dropout probability [ps[i]]. *)
Fixpoint hidden_kinds_by (ni : Z) (xtra_fc : list Z) (ps : list float)
  : list Kind :=
  match xtra_fc, ps with
  | nf :: rest, p :: ps' =>
      block_kinds ni nf p [ReLU] ++ hidden_kinds_by nf rest ps'
  | _, _ => []
  end.

(** The calls of [predict_to_bcolz] that [save_fc1] makes over three new,
    empty arrays: one for each dataset that is not empty. *)
Definition first_predict_calls (d : Data.t) (n0 n1 n2 : string) : list Call :=
  (if Nat.eqb (length (Data.train_ds d)) 0 then [] else [CPredictToBcolz n0])
  ++ (if Nat.eqb (length (Data.val_ds d)) 0 then [] else [CPredictToBcolz n1])
  ++ match Data.test_dl d with
     | Some dl =>
         if Data.dl_truthy (Some dl)
            && negb (Nat.eqb (length (Data.dataset dl)) 0)
         then [CPredictToBcolz n2] else []
     | None => []
     end.

(** The world [get_activations] leaves when it creates the arrays. *)
Definition created (n0 n1 n2 : string) (force : bool) (w : World) : World :=
  set_disk (<[n2 := []]> (<[n1 := []]> (<[n0 := []]> (disk w))))
    (set_calls (calls w ++ [CGetActivations force]) w).

(** The data [d'] has the image size and the dataset lengths of [d], and a
    test loader only if [d] has one; the images themselves may differ. *)
Definition same_shape (d d' : Data.t) : Prop :=
  Data.sz d' = Data.sz d
  ∧ length (Data.train_ds d') = length (Data.train_ds d)
  ∧ length (Data.val_ds d') = length (Data.val_ds d)
  ∧ ∀ dl', Data.test_dl d' = Some dl' → Data.dl_truthy (Some dl') = true →
           ∃ dl, Data.test_dl d = Some dl ∧ Data.dl_truthy (Some dl) = true
                 ∧ length (Data.dataset dl) = length (Data.dataset dl').

(** The final activation of the head and the loss that go with a task. *)
Definition task_head (is_multi is_reg : bool) : list Kind * ConvLearner.Loss :=
  if is_reg then ([], ConvLearner.l1_loss)
  else if is_multi then ([Sigmoid], ConvLearner.binary_cross_entropy)
       else ([LogSoftmax], ConvLearner.nll_loss).

(** ** More small examples *)

Module Cases.

(** The names of the three arrays of the small learner. *)
Definition n0 : string := "data/tmp/x_act_tiny_1_224.bc".
Definition n1 : string := "data/tmp/x_act_val_tiny_1_224.bc".
Definition n2 : string := "data/tmp/x_act_test_tiny_1_224.bc".


(** Other images, as many as in [Tiny.data] and of the same size. *)
Definition other_data : Data.t :=
  Data.mk "data" 224 64 2 ["cat"; "dog"] false false
    [Tiny.x3; Tiny.x1] [Tiny.x2]
    (Tiny.loader [Tiny.x3; Tiny.x1]) (Tiny.loader [Tiny.x2]) None [1; 0] [0].


(** [ConvnetBuilder(tiny, 2, False, False, ps, xtra_cut=1)] with a list of
    dropout probabilities. *)
Definition with_dropout (ps : list float) : M ConvnetBuilder.t :=
  ConvnetBuilder.__init__ Tiny.create Tiny.cut_model Tiny.num_features
    (other_arch "tiny") 2 false false (Some (ConvnetBuilder.DropList ps))
    None 1.

(** [ConvnetBuilder(tiny, 2, False, False, p, xtra_cut=1)] with a single
    dropout number. *)
Definition with_number (p : float) : M ConvnetBuilder.t :=
  ConvnetBuilder.__init__ Tiny.create Tiny.cut_model Tiny.num_features
    (other_arch "tiny") 2 false false (Some (ConvnetBuilder.DropNum p))
    None 1.

(** A [num_features] that finds no layer with a number of features. *)
Definition no_features (layers : list Module) : option Z := None.

End Cases.

(** * Properties *)

(** ** Running the monad *)

Lemma bind_Ok {A B} (m : M A) (f : A -> M B) w b w' :
  bind m f w = Ok (b, w') →
  ∃ a w1, m w = Ok (a, w1) ∧ f a w1 = Ok (b, w').
Proof.
  unfold bind. destruct (m w) as [[a w1]|e]; [|discriminate].
  intros H. by exists a, w1.
Qed.

Lemma bind_run {A B} (m : M A) (f : A -> M B) w a w1 :
  m w = Ok (a, w1) → bind m f w = f a w1.
Proof. unfold bind. by intros ->. Qed.

Lemma lift_Ok {A} (r : Result A) w a w' :
  lift r w = Ok (a, w') → r = Ok a ∧ w' = w.
Proof. unfold lift. destruct r; intros H; by inversion H. Qed.

Lemma new_Ok k cs w m w' :
  new k cs w = Ok (m, w') →
  m = Mod (next_id w) k cs ∧ w' = set_next_id (S (next_id w)) w.
Proof. unfold new. intros H. by inversion H. Qed.

(** Splits a successful run of [x <- m ;; k] in hypothesis [H] into the run
    of [m] and the run of [k]. *)
Tactic Notation "inv_bind" hyp(H) "as" ident(a) ident(w) ident(Hm) :=
  apply bind_Ok in H as (a & w & Hm & H).

(** ** Python values, on examples *)

Example truthy_quarter : truthy 0.25%float = true.
Proof. reflexivity. Qed.

Example truthy_minus_zero : truthy (-0)%float = false.
Proof. reflexivity. Qed.

Example py_slice_to_negative : py_slice_to [1; 2; 3; 4] (-1) = [1; 2; 3].
Proof. reflexivity. Qed.

Example py_slice_from_negative : py_slice_from [1; 2; 3; 4] (-1) = [4].
Proof. reflexivity. Qed.

Example py_index_last : py_index [1; 2; 3] (-1) = Ok 3.
Proof. reflexivity. Qed.

Example py_index_out_of_range : py_index [1; 2; 3] 3 = Raise IndexError.
Proof. reflexivity. Qed.

Example split_by_idxs_at_two :
  split_by_idxs [1; 2; 3; 4; 5] [2] = [[1; 2]; [3; 4; 5]].
Proof. reflexivity. Qed.

Example os_path_join_relative :
  os_path_join "data" "tmp" = "data/tmp".
Proof. reflexivity. Qed.

Example os_path_join_absolute :
  os_path_join "data" "/tmp" = "/tmp".
Proof. reflexivity. Qed.

(** ** Python slices *)

Lemma py_slice_split {A} (l : list A) (k : Z) :
  py_slice l 0 k ++ py_slice_from l k = l.
Proof.
  unfold py_slice, py_slice_from.
  replace (slice_bound (length l) 0) with 0%nat by (unfold slice_bound; simpl; lia).
  rewrite drop_0, Nat.sub_0_r. apply take_drop.
Qed.

Lemma py_index_repeat {A} (x : A) (n : nat) (i : Z) :
  - Z.of_nat n <= i < Z.of_nat n → py_index (repeat x n) i = Ok x.
Proof.
  intros Hi. unfold py_index. rewrite repeat_length.
  set (k := if i <? 0 then Z.of_nat n + i else i).
  assert (Hk : 0 <= k < Z.of_nat n) by (subst k; destruct (Z.ltb_spec i 0); lia).
  destruct (Z.ltb_spec k 0); [lia|].
  destruct (repeat x n !! Z.to_nat k) as [y|] eqn:E.
  - apply list_elem_of_lookup_2, list_elem_of_In, repeat_spec in E. by subst.
  - apply lookup_ge_None in E. rewrite repeat_length in E. lia.
Qed.

(** ** The head's blocks *)

Lemma create_fc_layer_kinds ni nf p actn w :
  dropout_ok p = true →
  ∃ res w', ConvnetBuilder.create_fc_layer ni nf p actn w = Ok (res, w')
    ∧ map kind_of res
      = block_kinds ni nf p
          (match actn with
           | Some a => if truthy_module a then [kind_of a] else []
           | None => []
           end).
Proof.
  unfold dropout_ok, ConvnetBuilder.create_fc_layer, block_kinds,
    ConvnetBuilder.nn_Dropout.
  intros Hok.
  destruct (truthy p); cbn in Hok; [apply negb_true_iff in Hok; rewrite Hok|];
    cbn; destruct actn as [a|]; try destruct (truthy_module a);
    eexists _, _; (split; [reflexivity|]); by rewrite ?map_app.
Qed.

Lemma create_fc_layer_raises ni nf p actn w :
  dropout_ok p = false →
  ConvnetBuilder.create_fc_layer ni nf p actn w = Raise ValueError.
Proof.
  unfold dropout_ok, ConvnetBuilder.create_fc_layer, ConvnetBuilder.nn_Dropout.
  intros Hok. destruct (truthy p); [|discriminate]. cbn in Hok.
  apply negb_false_iff in Hok. by rewrite Hok.
Qed.

Lemma create_fc_layer_Ok ni nf p actn w res w' :
  ConvnetBuilder.create_fc_layer ni nf p actn w = Ok (res, w') →
  dropout_ok p = true
  ∧ map kind_of res
    = block_kinds ni nf p
        (match actn with
         | Some a => if truthy_module a then [kind_of a] else []
         | None => []
         end).
Proof.
  intros H. destruct (dropout_ok p) eqn:Hok.
  - split; [done|].
    destruct (create_fc_layer_kinds ni nf p actn w Hok) as (r & u & Hrun & Hk).
    rewrite Hrun in H. by injection H as <- <-.
  - by rewrite create_fc_layer_raises in H.
Qed.

Lemma last_cons_default {A} (x d d' : A) (l : list A) :
  List.last (x :: l) d = List.last l x ∧ List.last (x :: l) d = List.last (x :: l) d'.
Proof.
  revert x d d'. induction l as [|y l IH]; intros x d d'; [done|].
  destruct (IH y d d') as [E1 E2]. destruct (IH y x d) as [E3 E4].
  change (List.last (x :: y :: l) d) with (List.last (y :: l) d).
  change (List.last (x :: y :: l) d') with (List.last (y :: l) d').
  split; congruence.
Qed.

Lemma fc_hidden_repeat p n xs :
  dropout_ok p = true →
  ∀ i ni res w,
    0 <= i → i + Z.of_nat (length xs) <= Z.of_nat n →
    ∃ res' w',
      ConvnetBuilder.fc_hidden (repeat p n) xs i ni res w
      = Ok ((res ++ res', List.last xs ni), w')
      ∧ map kind_of res' = hidden_kinds ni xs p.
Proof.
  intros Hok. induction xs as [|nf rest IH]; intros i ni res w Hi Hn.
  - exists [], w. by rewrite app_nil_r.
  - cbn [length] in Hn. cbn [ConvnetBuilder.fc_hidden].
    rewrite (bind_run _ _ w p w);
      [|unfold lift; rewrite py_index_repeat by lia; reflexivity].
    set (actn := Mod (next_id w) ReLU []).
    rewrite (bind_run _ _ w actn (set_next_id (S (next_id w)) w)) by reflexivity.
    destruct (create_fc_layer_kinds ni nf p (Some actn)
                (set_next_id (S (next_id w)) w) Hok)
      as (blk & w1 & Hblk & Hk).
    rewrite (bind_run _ _ _ _ _ Hblk).
    destruct (IH (i + 1) nf (res ++ blk) w1) as (res' & w' & Hrun & Hk');
      [lia..|].
    exists (blk ++ res'), w'. split.
    + rewrite Hrun, <-app_assoc.
      by destruct (last_cons_default nf ni ni rest) as [-> _].
    + rewrite map_app, Hk, Hk'. reflexivity.
Qed.

Lemma get_fc_layers_of_final nf xf ps im ir lls w layers w' :
  ConvnetBuilder.get_fc_layers_of nf xf ps im ir lls w = Ok (layers, w') →
  ∃ body ni,
    map kind_of layers = body ++ Linear ni lls :: final_kinds im ir.
Proof.
  unfold ConvnetBuilder.get_fc_layers_of. intros H.
  inv_bind H as hidden w0 Hhid. destruct hidden as [res ni].
  inv_bind H as actn w1 Hactn.
  inv_bind H as p w2 Hp. apply lift_Ok in Hp as [_ ->].
  inv_bind H as blk w3 Hblk. inversion H; subst; clear H.
  apply create_fc_layer_Ok in Hblk as [_ Hk].
  assert (Hfin : match (if ir then None else Some actn) with
                 | Some a => if truthy_module a then [kind_of a] else []
                 | None => []
                 end = final_kinds im ir).
  { unfold final_kinds. destruct ir; [done|].
    destruct im; apply new_Ok in Hactn as [-> _]; reflexivity. }
  exists (map kind_of res ++ [BatchNorm1d ni]
          ++ (if truthy p then [Dropout p] else [])), ni.
  rewrite map_app, Hk, Hfin. unfold block_kinds.
  by rewrite <-!app_assoc.
Qed.

Lemma get_fc_layers_of_repeat nf xf p im ir lls w :
  dropout_ok p = true →
  ∃ layers w',
    ConvnetBuilder.get_fc_layers_of nf xf (repeat p (length xf + 1)) im ir lls w
    = Ok (layers, w')
    ∧ map kind_of layers
      = hidden_kinds nf xf p
        ++ block_kinds (List.last xf nf) lls p (final_kinds im ir).
Proof.
  intros Hok. unfold ConvnetBuilder.get_fc_layers_of.
  destruct (fc_hidden_repeat p (length xf + 1) xf Hok 0 nf [] w)
    as (res & w3 & Hhid & Hk); [lia..|].
  rewrite (bind_run _ _ _ _ _ Hhid).
  set (fin := if im then new Sigmoid [] else new LogSoftmax []).
  destruct (fin w3) as [[actn w4]|e] eqn:Hfin;
    [|subst fin; destruct im; discriminate].
  rewrite (bind_run _ _ _ _ _ Hfin).
  rewrite (bind_run _ _ w4 p w4);
    [|unfold lift; rewrite py_index_repeat by lia; reflexivity].
  destruct (create_fc_layer_kinds (List.last xf nf) lls p
              (if ir then None else Some actn) w4 Hok)
    as (blk & w5 & Hblk & Hkb).
  rewrite (bind_run _ _ _ _ _ Hblk). cbn.
  eexists _, _. split; [reflexivity|].
  rewrite map_app, Hk, Hkb. do 2 f_equal.
  unfold final_kinds. destruct ir; [done|].
  subst fin. destruct im; apply new_Ok in Hfin as [-> _]; reflexivity.
Qed.

(** A head that was built had a last probability to build its final block
    with, one that [nn.Dropout] accepts or zero. *)
Lemma get_fc_layers_of_last nf xf ps im ir lls w layers w' :
  ConvnetBuilder.get_fc_layers_of nf xf ps im ir lls w = Ok (layers, w') →
  ∃ p, py_index ps (-1) = Ok p ∧ dropout_ok p = true.
Proof.
  unfold ConvnetBuilder.get_fc_layers_of. intros H.
  inv_bind H as hidden w0 Hhid. destruct hidden as [res ni].
  inv_bind H as actn w1 Hactn.
  inv_bind H as p w2 Hp. apply lift_Ok in Hp as [Hp ->].
  inv_bind H as blk w3 Hblk.
  apply create_fc_layer_Ok in Hblk as [Hok _]. by exists p.
Qed.

Lemma get_fc_layers_of_repeat_Ok nf xf p im ir lls w layers w' :
  ConvnetBuilder.get_fc_layers_of nf xf (repeat p (length xf + 1)) im ir lls w
  = Ok (layers, w') →
  dropout_ok p = true
  ∧ map kind_of layers
    = hidden_kinds nf xf p
      ++ block_kinds (List.last xf nf) lls p (final_kinds im ir).
Proof.
  intros H.
  destruct (get_fc_layers_of_last _ _ _ _ _ _ _ _ _ H) as (q & Hq & Hok).
  rewrite py_index_repeat in Hq by lia. injection Hq as <-.
  split; [exact Hok|].
  destruct (get_fc_layers_of_repeat nf xf p im ir lls w Hok)
    as (layers' & u & Hrun & Hk).
  rewrite Hrun in H. by injection H as <- <-.
Qed.

Section BuilderProperties.
Variable create : Arch -> bool -> M Module.
Variable cut_model : Module -> Z -> list Module.
Variable num_features : list Module -> option Z.

Local Abbreviation init := (ConvnetBuilder.__init__ create cut_model num_features).

(** What [__init__] leaves in the builder, step by step. *)
Lemma init_Ok f lls im ir dp xf xc w b w' :
  init f lls im ir dp xf xc w = Ok (b, w') →
  let xtra_fc := match xf with None => [512] | Some l => l end in
  let dps := match dp with
             | None => [0.25%float; 0.5%float]
             | Some (ConvnetBuilder.DropList l) => l
             | Some (ConvnetBuilder.DropNum p) =>
                 repeat p (length xtra_fc + 1)
             end in
  ∃ net w1 nf pool flat top fc_layers w2 fcm w3,
    create f true w = Ok (net, w1)
    ∧ match model_features f with
      | Some n => nf = n
      | None =>
          ∃ n, num_features (cut_model net (ConvnetBuilder.cut_of f xc).1)
               = Some n
               ∧ nf = n * 2
      end
    ∧ kind_of pool = AdaptiveConcatPool2d ∧ kind_of flat = Flatten
    ∧ kind_of top = Sequential
    ∧ children top
      = cut_model net (ConvnetBuilder.cut_of f xc).1 ++ [pool; flat]
    ∧ ConvnetBuilder.get_fc_layers_of nf xtra_fc dps im ir lls w2
      = Ok (fc_layers, w3)
    ∧ kind_of fcm = Sequential ∧ children fcm = fc_layers
    ∧ b = ConvnetBuilder.mk f lls im ir xc dps xtra_fc
            (ConvnetBuilder.cut_of f xc).2 nf
            top (length fc_layers) fcm
            (Mod (S (next_id w3)) Sequential (children top ++ fc_layers)).
Proof.
  unfold ConvnetBuilder.__init__. intros H.
  destruct (ConvnetBuilder.cut_of f xc) as [cut lrc] eqn:Hcut.
  inv_bind H as net w1 Hnet.
  inv_bind H as nf wn Hnf.
  assert (Hnf' : wn = w1
                 ∧ match model_features f with
                   | Some n => nf = n
                   | None => ∃ n, num_features (cut_model net cut) = Some n
                                  ∧ nf = n * 2
                   end).
  { destruct (model_features f) as [n|].
    - by injection Hnf as <- <-.
    - destruct (num_features (cut_model net cut)) as [n|]; [|discriminate].
      injection Hnf as <- <-. split; [done|]. by exists n. }
  destruct Hnf' as [-> Hnf'].
  inv_bind H as pool wp Hpool. apply new_Ok in Hpool as [-> ->].
  inv_bind H as flat wf Hflat. apply new_Ok in Hflat as [-> ->].
  inv_bind H as top wt Htop. apply new_Ok in Htop as [-> ->].
  inv_bind H as fc_layers w3 Hfc.
  inv_bind H as fcm wm Hfcm. apply new_Ok in Hfcm as [-> ->].
  inv_bind H as mdl wl Hmdl. apply new_Ok in Hmdl as [-> ->].
  inversion H; subst; clear H.
  eexists net, w1, nf, (Mod _ AdaptiveConcatPool2d []), (Mod _ Flatten []),
    (Mod _ Sequential _), fc_layers, _, (Mod _ Sequential _), w3.
  split; [exact Hnet|]. split; [exact Hnf'|]. do 4 (split; [reflexivity|]).
  split.
  { destruct dp as [[p|l]|]; exact Hfc. }
  do 2 (split; [reflexivity|]).
  destruct dp as [[p|l]|]; reflexivity.
Qed.

Lemma cut_of_meta f xc :
  ConvnetBuilder.cut_of f xc
  = (match model_meta f with Some (cut, _) => cut | None => 0 end - xc,
     match model_meta f with Some (_, lr_cut) => lr_cut | None => 0 end).
Proof.
  unfold ConvnetBuilder.cut_of. by destruct (model_meta f) as [[cut lrc]|].
Qed.

(** C5: the head of every builder ends with its last linear layer followed
    by the activation of the task and nothing else: no activation for a
    regression (with or without [is_multi]), a sigmoid for a multi-label
    task, a log-softmax for a single-label one. *)
Theorem final_activation_by_task f lls im ir dp xf xc w b w' :
  init f lls im ir dp xf xc w = Ok (b, w') →
  ∃ body ni,
    map kind_of (children (ConvnetBuilder.fc_model b))
    = body ++ Linear ni lls ::
        (if ir then [] else if im then [Sigmoid] else [LogSoftmax]).
Proof.
  intros H. apply init_Ok in H
    as (net & w1 & nf & pool & flat & top & fcl & w2 & fcm & w3
        & _ & _ & _ & _ & _ & _ & Hfc & _ & Hch & ->).
  cbn [ConvnetBuilder.fc_model]. rewrite Hch.
  exact (get_fc_layers_of_final _ _ _ _ _ _ _ _ _ Hfc).
Qed.

(** C7: the cut index is the architecture's entry of [model_meta] minus
    [xtra_cut], and [lr_cut] its second entry; both entries are 0 for an
    architecture that is not in the table.  [top_model] is the backbone
    cut there, followed by one [AdaptiveConcatPool2d] and one [Flatten]. *)
Theorem backbone_cut_then_adapter f lls im ir dp xf xc w b w' :
  init f lls im ir dp xf xc w = Ok (b, w') →
  let cut := match model_meta f with Some (cut, _) => cut | None => 0 end
             - xc in
  ConvnetBuilder.lr_cut b
  = match model_meta f with Some (_, lr_cut) => lr_cut | None => 0 end
  ∧ ∃ net w1 pool flat,
      create f true w = Ok (net, w1)
      ∧ kind_of (ConvnetBuilder.top_model b) = Sequential
      ∧ children (ConvnetBuilder.top_model b)
        = cut_model net cut ++ [pool; flat]
      ∧ kind_of pool = AdaptiveConcatPool2d
      ∧ kind_of flat = Flatten.
Proof.
  intros H. apply init_Ok in H
    as (net & w1 & nf & pool & flat & top & fcl & w2 & fcm & w3
        & Hnet & _ & Hpool & Hflat & Htop & Hch & _ & _ & _ & ->).
  rewrite cut_of_meta in *. cbn in *.
  split; [reflexivity|]. by exists net, w1, pool, flat.
Qed.

(** C10: in every builder made with a single number as [dropout_percs],
    the number is repeated once for each fully-connected block,
    [len(xtra_fc)+1] times, and every block of the head is built with it:
    batch norm and linear always, dropout exactly when the number is not
    zero. *)
Theorem single_dropout_replicated f lls im ir p xf xc w b w' :
  init f lls im ir (Some (ConvnetBuilder.DropNum p)) xf xc w = Ok (b, w') →
  ConvnetBuilder.dropout_percs b
  = repeat p (length (ConvnetBuilder.xtra_fc b) + 1)
  ∧ map kind_of (children (ConvnetBuilder.fc_model b))
    = hidden_kinds (ConvnetBuilder.nf b) (ConvnetBuilder.xtra_fc b) p
      ++ block_kinds
           (List.last (ConvnetBuilder.xtra_fc b) (ConvnetBuilder.nf b))
           lls p (final_kinds im ir)
  ∧ ∀ ni nf actn,
      BatchNorm1d ni ∈ block_kinds ni nf p actn
      ∧ Linear ni nf ∈ block_kinds ni nf p actn
      ∧ (Dropout p ∈ block_kinds ni nf p [] ↔ truthy p = true).
Proof.
  intros H. apply init_Ok in H
    as (net & w1 & nf0 & pool & flat & top & fcl & w2 & fcm & w3
        & _ & _ & _ & _ & _ & _ & Hfc & _ & Hch & ->).
  cbn [ConvnetBuilder.dropout_percs ConvnetBuilder.xtra_fc
       ConvnetBuilder.fc_model ConvnetBuilder.nf].
  split; [reflexivity|]. split.
  - rewrite Hch. by apply get_fc_layers_of_repeat_Ok in Hfc as [_ Hk].
  - intros ni nf' actn. unfold block_kinds.
    split; [set_solver|]. split; [set_solver|].
    destruct (truthy p); [set_solver|].
    split; [|done]. intros Hin. cbn in Hin.
    apply elem_of_cons in Hin as [Hin|Hin]; [discriminate|].
    apply elem_of_cons in Hin as [Hin|Hin]; [discriminate|].
    by apply elem_of_nil in Hin.
Qed.
End BuilderProperties.

Lemma layer_groups_split (self : ConvnetBuilder.t) :
  let c := split_children self in
  let k := ConvnetBuilder.lr_cut self in
  ConvnetBuilder.get_layer_groups self false
  = [LGList (py_slice c 0 k); LGList (py_slice_from c k);
     LGModule (ConvnetBuilder.fc_model self)]
  ∧ py_slice c 0 k ++ py_slice_from c k = c.
Proof. split; [reflexivity|apply py_slice_split]. Qed.

(** C8: without [do_fc] the layer groups are the children of [top_model]
    (its first child opened up when it has exactly three) split at index
    [lr_cut], and then the head; the list is never empty and the head is its
    last element. *)
Theorem layer_groups_end_with_head (self : ConvnetBuilder.t) :
  let c := split_children self in
  let k := ConvnetBuilder.lr_cut self in
  ConvnetBuilder.get_layer_groups self false
  = [LGList (py_slice c 0 k); LGList (py_slice_from c k);
     LGModule (ConvnetBuilder.fc_model self)]
  ∧ py_slice c 0 k ++ py_slice_from c k = c
  ∧ ConvnetBuilder.get_layer_groups self false ≠ []
  ∧ last (ConvnetBuilder.get_layer_groups self false)
    = Some (LGModule (ConvnetBuilder.fc_model self)).
Proof.
  cbn zeta. split; [reflexivity|]. split; [apply py_slice_split|].
  split; [discriminate|reflexivity].
Qed.

(** ** Names of the cached arrays *)

Lemma string_length_app (s1 s2 : string) :
  String.length (s1 +:+ s2) = (String.length s1 + String.length s2)%nat.
Proof. induction s1 as [|a s1 IH]; [done|]. simpl. by f_equal. Qed.

Lemma activation_names_distinct self d :
  ∃ n0 n1 n2,
    activation_names self d = [n0; n1; n2] ∧ n0 ≠ n1 ∧ n0 ≠ n2 ∧ n1 ≠ n2.
Proof.
  unfold activation_names. cbn [map].
  set (tmpl := "_" +:+ _).
  eexists _, _, _. split; [reflexivity|].
  unfold os_path_join.
  change (String.prefix "/" ("x_act" +:+ tmpl)) with false.
  change (String.prefix "/" ("x_act_val" +:+ tmpl)) with false.
  change (String.prefix "/" ("x_act_test" +:+ tmpl)) with false.
  destruct (String.eqb (ConvLearner.tmp_path self) "" || ends_with_slash _);
    repeat split; intros E; apply (f_equal String.length) in E;
    rewrite !string_length_app in E; cbn in E; lia.
Qed.


(** ** The learner *)

Section LearnerProperties.
Variable forward : Module -> Tensor -> Tensor.
Variable from_arrays :
  string -> string * list Z -> string * list Z -> Z -> list string ->
  option string -> World -> Data.t.

Local Abbreviation predict_to_bcolz := (ConvLearner.predict_to_bcolz forward).
Local Abbreviation get_activations := ConvLearner.get_activations.
Local Abbreviation save_fc1 := (ConvLearner.save_fc1 forward from_arrays).
Local Abbreviation init := (ConvLearner.__init__ forward from_arrays).
Local Abbreviation rows := (activation_rows forward).
Local Abbreviation cached := (with_cache from_arrays).

Lemma rows_length m dl n : covers dl n → length (rows m dl) = n.
Proof.
  unfold covers, activation_rows. intros <-.
  induction (Data.batches dl) as [|b bs IH]; [done|].
  cbn. by rewrite !length_app, length_map, IH.
Qed.

(** *** Reading and filling one array *)

Lemma refill_run {B} self acts i arr n m dl (k : unit → M B) w :
  ConvLearner.activations self = Some acts →
  py_index acts i = Ok arr →
  bind (ConvLearner.len_activation self i)
    (fun len => bind (if negb (Nat.eqb len n)
                      then predict_to_bcolz m dl arr else ret tt) k) w
  = k tt (refill arr (rows m dl) n w).
Proof.
  intros Ha Hi. unfold ConvLearner.len_activation, refill, stale. rewrite Ha.
  unfold bind at 2. unfold lift. rewrite Hi. cbn.
  by destruct (Nat.eqb _ n).
Qed.

Lemma refill_calls arr rs n w :
  calls (refill arr rs n w)
  = calls w ++ (if stale arr n w then [CPredictToBcolz arr] else []).
Proof.
  unfold refill. destruct (stale arr n w); [done|by rewrite app_nil_r].
Qed.

Lemma refill_other arr rs n w x :
  x ≠ arr → disk (refill arr rs n w) !! x = disk w !! x.
Proof.
  intros Hx. unfold refill. destruct (stale arr n w); [|done].
  cbn. by rewrite lookup_insert_ne.
Qed.

Lemma refill_is_Some arr rs n w x :
  is_Some (disk w !! x) → is_Some (disk (refill arr rs n w) !! x).
Proof.
  intros Hx. unfold refill. destruct (stale arr n w); [|done].
  cbn. destruct (decide (arr = x)) as [->|Hne].
  - rewrite lookup_insert_eq. by eexists.
  - by rewrite lookup_insert_ne.
Qed.

Lemma refill_fresh arr rs n w :
  length rs = n → stale arr n (refill arr rs n w) = false.
Proof.
  intros Hn. unfold refill. destruct (stale arr n w) eqn:E; [|done].
  unfold stale. cbn. rewrite lookup_insert_eq. cbn.
  by rewrite Hn, Nat.eqb_refl.
Qed.

Lemma refill_same arr rs n w : stale arr n w = false → refill arr rs n w = w.
Proof. intros E. unfold refill. by rewrite E. Qed.

Lemma stale_other arr rs n w x k :
  x ≠ arr → stale x k (refill arr rs n w) = stale x k w.
Proof. intros Hx. unfold stale. by rewrite refill_other. Qed.

(** *** [get_activations] *)

Lemma get_activations_unfold self force w d n0 n1 n2 :
  ConvLearner.data self = Ok d →
  activation_names self d = [n0; n1; n2] →
  get_activations self force w
  = bind (if bool_decide (is_Some (disk w !! n0)) && negb force
          then map_M bcolz_open [n0; n1; n2]
          else map_M (ConvLearner.create_empty_bcolz self
                        (ConvnetBuilder.nf (ConvLearner.models self)))
                 [n0; n1; n2])
      (fun acts => ret (ConvLearner.set_activations (Some acts) self))
      (set_calls (calls w ++ [CGetActivations force]) w).
Proof.
  intros Hd Hn. unfold ConvLearner.get_activations.
  cbn [bind log modify]. unfold lift at 1. rewrite Hd.
  rewrite (bind_run _ _ _ d _ eq_refl).
  change (map _ ["x_act"; "x_act_val"; "x_act_test"])
    with (activation_names self d).
  rewrite Hn. reflexivity.
Qed.

Lemma get_activations_reopen self w n0 n1 n2 :
  ConvLearner.precompute self = false →
  activation_names self (ConvLearner.data_ self) = [n0; n1; n2] →
  is_Some (disk w !! n0) → is_Some (disk w !! n1) →
  is_Some (disk w !! n2) →
  get_activations self false w
  = Ok (ConvLearner.set_activations (Some [n0; n1; n2]) self,
        set_calls (calls w ++ [CGetActivations false]) w).
Proof.
  intros Hpre Hn [r0 H0] [r1 H1] [r2 H2].
  rewrite (get_activations_unfold self false w (ConvLearner.data_ self)
             n0 n1 n2); [|by unfold ConvLearner.data; rewrite Hpre|done].
  rewrite bool_decide_eq_true_2 by by eexists.
  cbn. unfold bind, bcolz_open. cbn.
  rewrite H0; cbn. rewrite H1; cbn. by rewrite H2.
Qed.

(** Whatever it finds, a successful [get_activations] leaves the three
    arrays on disk, under the three names. *)
Lemma get_activations_inv self w self' w' n0 n1 n2 :
  ConvLearner.precompute self = false →
  activation_names self (ConvLearner.data_ self) = [n0; n1; n2] →
  get_activations self false w = Ok (self', w') →
  self' = ConvLearner.set_activations (Some [n0; n1; n2]) self
  ∧ calls w' = calls w ++ [CGetActivations false]
  ∧ frozen w' = frozen w
  ∧ is_Some (disk w' !! n0) ∧ is_Some (disk w' !! n1)
  ∧ is_Some (disk w' !! n2).
Proof.
  intros Hpre Hn.
  rewrite (get_activations_unfold self false w (ConvLearner.data_ self)
             n0 n1 n2); [|by unfold ConvLearner.data; rewrite Hpre|done].
  destruct (bool_decide (is_Some (disk w !! n0))); cbn.
  - unfold bind, bcolz_open. cbn.
    destruct (disk w !! n0) eqn:H0; [|done]. cbn.
    destruct (disk w !! n1) eqn:H1; [|done]. cbn.
    destruct (disk w !! n2) eqn:H2; [|done]. cbn.
    intros H. inversion H; subst; clear H. cbn.
    rewrite H0, H1, H2. by repeat split; try eexists.
  - unfold bind. cbn. intros H. inversion H; subst; clear H. cbn.
    repeat split; try reflexivity.
    + destruct (decide (n0 = n2)) as [->|?];
        [|rewrite lookup_insert_ne by done;
          destruct (decide (n0 = n1)) as [->|?];
          [|rewrite lookup_insert_ne by done]];
        rewrite lookup_insert_eq; by eexists.
    + destruct (decide (n1 = n2)) as [->|?];
        [|rewrite lookup_insert_ne by done];
        rewrite lookup_insert_eq; by eexists.
    + rewrite lookup_insert_eq; by eexists.
Qed.

(** *** [save_fc1] *)

Lemma save_fc1_unfold self w w1 n0 n1 n2 :
  ConvLearner.precompute self = false →
  get_activations self false (set_calls (calls w ++ [CSaveFc1]) w)
  = Ok (ConvLearner.set_activations (Some [n0; n1; n2]) self, w1) →
  let d := ConvLearner.data_ self in
  let w' := fill_arrays forward
              (ConvnetBuilder.top_model (ConvLearner.models self))
              d n0 n1 n2 w1 in
  save_fc1 self w = Ok (cached self d n0 n1 n2 w', w').
Proof.
  intros Hpre Hget d w'.
  unfold ConvLearner.save_fc1. cbn [bind log modify].
  rewrite (bind_run _ _ _ _ _ Hget).
  cbn [ConvLearner.activations ConvLearner.set_activations].
  rewrite (bind_run _ _ _ (n0, n1, n2) w1 eq_refl). cbv beta iota.
  rewrite (bind_run _ _ w1 d w1);
    [|by unfold lift, ConvLearner.data; cbn; rewrite Hpre].
    set (self1 := ConvLearner.set_activations (Some [n0; n1; n2]) self).
  set (m := ConvnetBuilder.top_model (ConvLearner.models self1)).
  rewrite (refill_run self1 [n0; n1; n2] 0 n0 _ m _ _ w1 eq_refl eq_refl).
  rewrite (refill_run self1 [n0; n1; n2] 1 n1 _ m _ _ _ eq_refl eq_refl).
  subst w'. unfold fill_arrays. fold (rows m (Data.fix_dl d)).
  fold (rows m (Data.val_dl d)).
  set (w3 := refill n1 _ _ _).
  unfold Data.test_ds, Data.iterable.
  unfold with_cache. fold d.
  destruct (Data.test_dl d) as [dl|] eqn:Hdl; [|reflexivity].
  destruct (Data.dl_truthy (Some dl)) eqn:Ht; [|reflexivity].
  unfold refill, stale, ConvLearner.len_activation, bind, lift, bcolz_len,
    py_index.
  cbn. change (Z.to_nat 2) with 2%nat. cbn.
  destruct (Nat.eqb _ (length (Data.dataset dl))); reflexivity.
Qed.

(** What [save_fc1] leaves on disk and in the log. *)
Section Fill.
Variables (m : Module) (d : Data.t) (n0 n1 n2 : string).
Hypothesis H01 : n0 ≠ n1.
Hypothesis H02 : n0 ≠ n2.
Hypothesis H12 : n1 ≠ n2.

Lemma fill_arrays_calls w :
  calls (fill_arrays forward m d n0 n1 n2 w)
  = calls w ++ predict_calls d n0 n1 n2 w.
Proof.
  unfold fill_arrays, predict_calls.
  destruct (Data.test_dl d) as [dl|];
    [destruct (Data.dl_truthy (Some dl))|..];
    rewrite ?refill_calls, ?stale_other by done;
    rewrite <-?app_assoc, ?app_nil_r; reflexivity.
Qed.

Lemma fill_arrays_same w :
  predict_calls d n0 n1 n2 w = [] →
  fill_arrays forward m d n0 n1 n2 w = w.
Proof.
  unfold fill_arrays, predict_calls. intros H.
  apply app_eq_nil in H as [H0 H]. apply app_eq_nil in H as [H1 H2].
  destruct (stale n0 _ w) eqn:E0; [done|].
  destruct (stale n1 _ w) eqn:E1; [done|].
  rewrite (refill_same n0) by done. rewrite (refill_same n1) by done.
  destruct (Data.test_dl d) as [dl|]; [|done].
  destruct (Data.dl_truthy (Some dl)); [|done].
  destruct (stale n2 _ w) eqn:E2; [done|].
  by rewrite refill_same.
Qed.

Lemma fill_arrays_frozen w :
  frozen (fill_arrays forward m d n0 n1 n2 w) = frozen w.
Proof.
  unfold fill_arrays, refill.
  destruct (Data.test_dl d) as [dl|];
    [destruct (Data.dl_truthy (Some dl))|..];
    repeat match goal with |- context [stale ?a ?n ?u] =>
             destruct (stale a n u) end; reflexivity.
Qed.

Lemma predict_calls_cache w : Forall is_cache_call (predict_calls d n0 n1 n2 w).
Proof.
  unfold predict_calls.
  destruct (stale n0 _ w), (stale n1 _ w), (Data.test_dl d) as [dl|];
    try destruct (Data.dl_truthy (Some dl) && stale n2 _ w);
    repeat constructor.
Qed.

Lemma fill_arrays_is_Some w x :
  is_Some (disk w !! x) →
  is_Some (disk (fill_arrays forward m d n0 n1 n2 w) !! x).
Proof.
  intros Hx. unfold fill_arrays.
  destruct (Data.test_dl d) as [dl|];
    [destruct (Data.dl_truthy (Some dl))|..];
    auto using refill_is_Some.
Qed.

Lemma fill_arrays_fresh w :
  loaders_cover d →
  predict_calls d n0 n1 n2 (fill_arrays forward m d n0 n1 n2 w) = [].
Proof.
  intros (Hfix & Hval & Htest).
  pose proof (rows_length m _ _ Hfix) as L0.
  pose proof (rows_length m _ _ Hval) as L1.
  assert (Hgo : ∀ u,
             stale n0 (length (Data.train_ds d)) u = false →
             stale n1 (length (Data.val_ds d)) u = false →
             match Data.test_dl d with
             | Some dl => Data.dl_truthy (Some dl) = true →
                          stale n2 (length (Data.dataset dl)) u = false
             | None => True
             end →
             predict_calls d n0 n1 n2 u = []).
  { intros u E0 E1 E2. unfold predict_calls. rewrite E0, E1.
    destruct (Data.test_dl d) as [dl|]; [|done].
    destruct (Data.dl_truthy (Some dl)); [|done]. by rewrite E2. }
  apply Hgo; unfold fill_arrays.
  - destruct (Data.test_dl d) as [dl|];
      [destruct (Data.dl_truthy (Some dl))|];
      rewrite ?(stale_other n2 _ _ _ n0), ?(stale_other n1 _ _ _ n0)
        by done;
      apply refill_fresh, L0.
  - destruct (Data.test_dl d) as [dl|];
      [destruct (Data.dl_truthy (Some dl))|];
      rewrite ?(stale_other n2 _ _ _ n1) by done;
      apply refill_fresh, L1.
  - destruct (Data.test_dl d) as [dl|] eqn:Hdl; [|done].
    intros ->. by apply refill_fresh, (rows_length m), Htest.
Qed.
End Fill.

Lemma save_fc1_reopen self w n0 n1 n2 :
  ConvLearner.precompute self = false →
  activation_names self (ConvLearner.data_ self) = [n0; n1; n2] →
  is_Some (disk w !! n0) → is_Some (disk w !! n1) →
  is_Some (disk w !! n2) →
  let d := ConvLearner.data_ self in
  let w' := fill_arrays forward
              (ConvnetBuilder.top_model (ConvLearner.models self)) d n0 n1 n2
              (set_calls (calls w ++ [CSaveFc1; CGetActivations false]) w) in
  save_fc1 self w = Ok (cached self d n0 n1 n2 w', w').
Proof.
  intros Hpre Hn E0 E1 E2 d w'.
  pose proof (get_activations_reopen self
                (set_calls (calls w ++ [CSaveFc1]) w) n0 n1 n2
                Hpre Hn E0 E1 E2) as Hget.
  rewrite (save_fc1_unfold self w _ n0 n1 n2 Hpre Hget).
  subst w'. cbn [calls set_calls]. by rewrite <-app_assoc.
Qed.

(** A successful [save_fc1], taken apart: the world [u] is the one
    [get_activations] leaves, with the three arrays on disk. *)
Lemma save_fc1_inv self w self1 w1 :
  ConvLearner.precompute self = false →
  save_fc1 self w = Ok (self1, w1) →
  let d := ConvLearner.data_ self in
  ∃ n0 n1 n2 u,
    activation_names self d = [n0; n1; n2]
    ∧ n0 ≠ n1 ∧ n0 ≠ n2 ∧ n1 ≠ n2
    ∧ calls u = calls w ++ [CSaveFc1; CGetActivations false]
    ∧ frozen u = frozen w
    ∧ is_Some (disk u !! n0) ∧ is_Some (disk u !! n1)
    ∧ is_Some (disk u !! n2)
    ∧ w1 = fill_arrays forward
             (ConvnetBuilder.top_model (ConvLearner.models self)) d
             n0 n1 n2 u
    ∧ self1 = cached self d n0 n1 n2 w1.
Proof.
  intros Hpre H d.
  destruct (activation_names_distinct self d)
    as (n0 & n1 & n2 & Hn & H01 & H02 & H12).
  pose proof H as Hrun.
  unfold ConvLearner.save_fc1 in Hrun.
  cbn [bind log modify] in Hrun.
  inv_bind Hrun as self' u Hget. clear Hrun.
  destruct (get_activations_inv _ _ _ _ n0 n1 n2 Hpre Hn Hget)
    as (-> & Hc & Hf & E0 & E1 & E2).
  rewrite (save_fc1_unfold self w u n0 n1 n2 Hpre Hget) in H.
  inversion H; subst; clear H.
  exists n0, n1, n2, u. repeat split; try done.
  rewrite Hc. cbn. by rewrite <-app_assoc.
Qed.

(** C2: once [save_fc1] has run, running it again computes nothing.  The
    second call finds the first array on disk, so [get_activations]
    reopens the three arrays instead of creating them; every stored length
    is then the length of its dataset, so [predict_to_bcolz] is not called
    and the disk is left as it was.  Whenever the arrays are found, the
    calls of [predict_to_bcolz] are exactly those of [predict_calls]: one
    for each array (training, validation, test) whose stored length
    differs from the length of its dataset. *)
Theorem save_fc1_again_computes_nothing self w self1 w1 :
  ConvLearner.precompute self = false →
  loaders_cover (ConvLearner.data_ self) →
  save_fc1 self w = Ok (self1, w1) →
  let d := ConvLearner.data_ self in
  ∃ n0 n1 n2,
    activation_names self d = [n0; n1; n2]
    ∧ is_Some (disk w1 !! n0)
    ∧ (∃ self2 w2,
         save_fc1 self1 w1 = Ok (self2, w2)
         ∧ ConvLearner.activations self2 = Some [n0; n1; n2]
         ∧ disk w2 = disk w1
         ∧ calls w2 = calls w1 ++ [CSaveFc1; CGetActivations false])
    ∧ ∀ u,
        is_Some (disk u !! n0) → is_Some (disk u !! n1) →
        is_Some (disk u !! n2) →
        ∃ self' u',
          save_fc1 self1 u = Ok (self', u')
          ∧ ConvLearner.activations self' = Some [n0; n1; n2]
          ∧ calls u' = calls u ++ [CSaveFc1; CGetActivations false]
                       ++ predict_calls d n0 n1 n2 u.
Proof.
  intros Hpre Hcov H d.
  destruct (save_fc1_inv self w self1 w1 Hpre H)
    as (n0 & n1 & n2 & u & Hn & H01 & H02 & H12 & Hc & _ & E0 & E1 & E2
        & Hw1 & Hself1).
  fold d in Hn, Hw1, Hself1.
  set (m := ConvnetBuilder.top_model (ConvLearner.models self)) in *.
  assert (Hpre1 : ConvLearner.precompute self1 = false) by by subst self1.
  assert (Hn1 : activation_names self1 (ConvLearner.data_ self1)
                = [n0; n1; n2]) by by subst self1.
  assert (Hd1 : ConvLearner.data_ self1 = d) by by subst self1.
  assert (Hm1 : ConvnetBuilder.top_model (ConvLearner.models self1) = m)
    by by subst self1.
  assert (Hlater : ∀ v,
            is_Some (disk v !! n0) → is_Some (disk v !! n1) →
            is_Some (disk v !! n2) →
            ∃ self' v',
              save_fc1 self1 v = Ok (self', v')
              ∧ ConvLearner.activations self' = Some [n0; n1; n2]
              ∧ v' = fill_arrays forward m d n0 n1 n2
                       (set_calls
                          (calls v ++ [CSaveFc1; CGetActivations false]) v)).
  { intros v V0 V1 V2.
    pose proof (save_fc1_reopen self1 v n0 n1 n2 Hpre1 Hn1 V0 V1 V2) as Hrun.
    rewrite Hd1, Hm1 in Hrun. cbv zeta in Hrun.
    eexists _, _. split; [exact Hrun|]. by split. }
  assert (F0 : is_Some (disk w1 !! n0))
    by (subst w1; by apply fill_arrays_is_Some).
  assert (F1 : is_Some (disk w1 !! n1))
    by (subst w1; by apply fill_arrays_is_Some).
  assert (F2 : is_Some (disk w1 !! n2))
    by (subst w1; by apply fill_arrays_is_Some).
  exists n0, n1, n2. split; [done|]. split; [done|]. split.
  - destruct (Hlater w1 F0 F1 F2) as (self2 & w2 & Hrun & Hact & Hw2).
    exists self2, w2. split; [done|]. split; [done|].
    assert (Hfresh : predict_calls d n0 n1 n2
              (set_calls (calls w1 ++ [CSaveFc1; CGetActivations false]) w1)
            = []).
    { pose proof (fill_arrays_fresh m d n0 n1 n2 H01 H02 H12 u Hcov) as Hf.
      rewrite <-Hw1 in Hf. exact Hf. }
    rewrite (fill_arrays_same m d n0 n1 n2 _ Hfresh) in Hw2.
    by subst w2.
  - intros v V0 V1 V2.
    destruct (Hlater v V0 V1 V2) as (self' & v' & Hrun & Hact & Hv').
    exists self', v'. split; [done|]. split; [done|].
    rewrite Hv', (fill_arrays_calls m d n0 n1 n2 H01 H02 H12).
    cbn [calls set_calls]. by rewrite <-app_assoc.
Qed.

(** *** Freezing *)

Lemma for_set_trainable gs b : ∀ w,
  ∃ w', for_M gs (fun l => ConvLearner.set_trainable l b) w = Ok (tt, w')
    ∧ calls w' = calls w ∧ disk w' = disk w
    ∧ ∀ i, i ∈ frozen w' ↔
           if b then i ∈ frozen w ∧ i ∉ flat_map group_ids gs
           else i ∈ frozen w ∨ i ∈ flat_map group_ids gs.
Proof.
  induction gs as [|g gs IH]; intros w.
  - exists w. repeat split; try done; destruct b; set_solver.
  - cbn [for_M bind ConvLearner.set_trainable modify].
    match goal with |- ∃ w', for_M _ _ ?u = _ ∧ _ =>
      destruct (IH u) as (w' & Hrun & Hc & Hd & Hf) end.
    exists w'. split; [exact Hrun|]. split; [exact Hc|]. split; [exact Hd|].
    intros i. rewrite Hf. cbn [frozen set_frozen flat_map].
    destruct b; set_solver.
Qed.

(** [freeze_to(n)] leaves frozen what was frozen or is in a layer group,
    except the groups from [n] on. *)
Lemma freeze_to_frozen self n w :
  let c := ConvLearner.get_layer_groups self in
  ∃ w', ConvLearner.freeze_to self n w = Ok (tt, w')
    ∧ calls w' = calls w ++ [CFreezeTo n] ∧ disk w' = disk w
    ∧ ∀ i, i ∈ frozen w' ↔
           (i ∈ frozen w ∨ i ∈ flat_map group_ids c)
           ∧ i ∉ flat_map group_ids (py_slice_from c n).
Proof.
  intros c. unfold ConvLearner.freeze_to. cbn [bind log modify]. fold c.
  destruct (for_set_trainable c false
              (set_calls (calls w ++ [CFreezeTo n]) w))
    as (w1 & Hrun1 & Hc1 & Hd1 & Hf1).
  rewrite (bind_run _ _ _ _ _ Hrun1).
  destruct (for_set_trainable (py_slice_from c n) true w1)
    as (w2 & Hrun2 & Hc2 & Hd2 & Hf2).
  exists w2. split; [exact Hrun2|]. split; [by rewrite Hc2, Hc1|].
  split; [by rewrite Hd2, Hd1|].
  intros i. rewrite Hf2, Hf1. reflexivity.
Qed.

Lemma freeze_returns self w :
  ∃ w', ConvLearner.freeze self w = Ok (tt, w')
    ∧ calls w' = calls w ++ [CFreeze; CFreezeTo (-1)].
Proof.
  unfold ConvLearner.freeze. cbn [bind log modify].
  destruct (freeze_to_frozen self (-1)
              (set_calls (calls w ++ [CFreeze]) w))
    as (w2 & Hrun & Hc & _).
  exists w2. split; [exact Hrun|]. rewrite Hc. cbn. by rewrite <-app_assoc.
Qed.

Lemma freeze_calls self w w' :
  ConvLearner.freeze self w = Ok (tt, w') →
  calls w' = calls w ++ [CFreeze; CFreezeTo (-1)].
Proof.
  unfold ConvLearner.freeze. cbn [bind log modify]. intros H.
  destruct (freeze_to_frozen self (-1)
              (set_calls (calls w ++ [CFreeze]) w))
    as (w2 & Hrun & Hc & _).
  rewrite Hrun in H. inversion H; subst; clear H.
  rewrite Hc. cbn. by rewrite <-app_assoc.
Qed.

(** [unfreeze] thaws the layer groups the learner has at the time of the
    call, and nothing else. *)
Lemma unfreeze_frozen self w :
  ∃ w', ConvLearner.unfreeze self w
        = Ok (ConvLearner.set_precompute false self, w')
    ∧ calls w' = calls w ++ [CUnfreeze; CFreezeTo 0]
    ∧ ∀ i, i ∈ frozen w' ↔
           i ∈ frozen w
           ∧ i ∉ flat_map group_ids (ConvLearner.get_layer_groups self).
Proof.
  unfold ConvLearner.unfreeze. cbn [bind log modify].
  destruct (freeze_to_frozen self 0 (set_calls (calls w ++ [CUnfreeze]) w))
    as (w' & Hrun & Hc & _ & Hf).
  rewrite (bind_run _ _ _ _ _ Hrun). exists w'.
  split; [reflexivity|]. split; [rewrite Hc; cbn; by rewrite <-app_assoc|].
  intros i. rewrite Hf. cbn [frozen set_calls].
  replace (py_slice_from (ConvLearner.get_layer_groups self) 0)
    with (ConvLearner.get_layer_groups self)
    by (unfold py_slice_from, slice_bound; cbn; by rewrite drop_0).
  set_solver.
Qed.

(** Called on a learner whose [precompute] is off, [unfreeze] makes every
    layer group trainable. *)
Lemma unfreeze_all_trainable self w :
  ConvLearner.precompute self = false →
  ∃ self' w', ConvLearner.unfreeze self w = Ok (self', w')
    ∧ ConvLearner.precompute self' = false
    ∧ ConvLearner.model self' = ConvnetBuilder.model (ConvLearner.models self')
    ∧ all_trainable (ConvLearner.get_layer_groups self') w'.
Proof.
  intros Hpre. destruct (unfreeze_frozen self w) as (w' & Hrun & _ & Hf).
  eexists _, w'. split; [exact Hrun|]. split; [done|]. split; [done|].
  intros g i Hg Hi Hfr. apply Hf in Hfr as [_ Hnot]. apply Hnot.
  unfold ConvLearner.get_layer_groups in *. cbn in Hg. rewrite Hpre.
  apply list_elem_of_In, in_flat_map. exists g.
  split; by apply list_elem_of_In.
Qed.

(** Called on a learner whose [precompute] is on, [unfreeze] thaws the
    head only: a frozen module outside the head stays frozen, although
    the learner's model is now the full one. *)
Lemma unfreeze_head_only self w i :
  ConvLearner.precompute self = true →
  i ∈ frozen w →
  i ∉ module_ids (ConvnetBuilder.fc_model (ConvLearner.models self)) →
  ∃ self' w', ConvLearner.unfreeze self w = Ok (self', w')
    ∧ ConvLearner.precompute self' = false
    ∧ ConvLearner.model self' = ConvnetBuilder.model (ConvLearner.models self')
    ∧ i ∈ frozen w'.
Proof.
  intros Hpre Hi Hout.
  destruct (unfreeze_frozen self w) as (w' & Hrun & _ & Hf).
  eexists _, w'. split; [exact Hrun|]. split; [done|]. split; [done|].
  apply Hf. split; [done|].
  unfold ConvLearner.get_layer_groups, ConvnetBuilder.get_layer_groups.
  rewrite Hpre. cbn. by rewrite app_nil_r.
Qed.

(** Called on a learner whose [precompute] is off, [freeze] leaves the head
    trainable and every other module of the layer groups frozen. *)
Lemma freeze_all_but_head self w :
  ConvLearner.precompute self = false →
  let c := split_children (ConvLearner.models self) in
  let head := ConvnetBuilder.fc_model (ConvLearner.models self) in
  ∃ w', ConvLearner.freeze self w = Ok (tt, w')
    ∧ ∀ i, i ∈ frozen w' ↔
           (i ∈ frozen w ∨ i ∈ flat_map module_ids c) ∧ i ∉ module_ids head.
Proof.
  intros Hpre c head. unfold ConvLearner.freeze. cbn [bind log modify].
  destruct (freeze_to_frozen self (-1) (set_calls (calls w ++ [CFreeze]) w))
    as (w' & Hrun & _ & _ & Hf).
  exists w'. split; [exact Hrun|]. intros i. rewrite Hf. clear Hf Hrun.
  unfold ConvLearner.get_layer_groups. rewrite Hpre.
  destruct (layer_groups_split (ConvLearner.models self)) as (Hg & Hc).
  fold c head in Hg, Hc. rewrite Hg.
  replace (py_slice_from _ (-1)) with [LGModule head] by reflexivity.
  cbn [flat_map group_ids frozen set_calls]. rewrite !app_nil_r.
  rewrite (app_assoc (flat_map module_ids _)), <-flat_map_app, Hc.
  rewrite !elem_of_app. tauto.
Qed.

(** *** The properties [model], [data] and [get_layer_groups] *)

(** C1: with [precompute] on, the learner shows its head only: [model] is
    the builder's [fc_model], [data] is [fc_data], the cached activations,
    and [get_layer_groups] is the list of the head alone, so the identities
    of the modules in the layer groups are those of the head. *)
Theorem precompute_exposes_head_only (self : ConvLearner.t) :
  ConvLearner.precompute self = true →
  let head := ConvnetBuilder.fc_model (ConvLearner.models self) in
  ConvLearner.model self = head
  ∧ (∀ d, ConvLearner.fc_data self = Some d → ConvLearner.data self = Ok d)
  ∧ ConvLearner.get_layer_groups self = [LGModule head]
  ∧ flat_map group_ids (ConvLearner.get_layer_groups self) = module_ids head.
Proof.
  intros Hpre head.
  unfold ConvLearner.model, ConvLearner.data, ConvLearner.get_layer_groups,
    ConvnetBuilder.get_layer_groups.
  rewrite Hpre. split; [done|]. split; [by intros d ->|]. split; [done|].
  cbn. by rewrite app_nil_r.
Qed.

(** *** The constructor *)

Lemma init_inv d models pc kwargs w l w' :
  init d models pc kwargs w = Ok (l, w') →
  ∃ self1 w1,
    (if pc then save_fc1 (configured d models kwargs) w = Ok (self1, w1)
     else self1 = configured d models kwargs ∧ w1 = w)
    ∧ ConvLearner.freeze self1 w1 = Ok (tt, w')
    ∧ l = ConvLearner.set_precompute pc self1.
Proof.
  unfold ConvLearner.__init__. intros H.
  inv_bind H as self0 w0 Hconf.
  assert (self0 = configured d models kwargs ∧ w0 = w) as [-> ->].
  { unfold configured. destruct (Data.is_reg d).
    - by inversion Hconf.
    - destruct (ConvLearner.metrics _) eqn:Hms.
      + by inversion Hconf.
      + cbn in Hconf. by inversion Hconf. }
  inv_bind H as self1 w1 Hsave. inv_bind H as u w2 Hfreeze. destruct u.
  inversion H; subst; clear H.
  exists self1, w1. split; [|by split].
  destruct pc; [exact Hsave|]. by inversion Hsave.
Qed.

Lemma configured_precompute d models kwargs :
  ConvLearner.precompute (configured d models kwargs) = false.
Proof.
  unfold configured. destruct (Data.is_reg d); [done|].
  by destruct (ConvLearner.metrics _).
Qed.

(** C6: the loss is [l1_loss] for a regression, whatever [is_multi] says,
    else [binary_cross_entropy] for a multi-label task and [nll_loss]
    otherwise.  Metrics that were not given default, unless the task is a
    regression, to [accuracy_thresh(0.5)] for a multi-label task and to
    [accuracy] otherwise; metrics that were given are kept. *)
Theorem init_loss_and_metrics d models pc kwargs w l w' :
  init d models pc kwargs w = Ok (l, w') →
  ConvLearner.crit l
  = Some (if Data.is_reg d then ConvLearner.l1_loss
          else if Data.is_multi d then ConvLearner.binary_cross_entropy
               else ConvLearner.nll_loss)
  ∧ (ConvLearner.kw_metrics kwargs = None → Data.is_reg d = false →
     ConvLearner.metrics l
     = Some (if Data.is_multi d
             then [ConvLearner.accuracy_thresh 0.5%float]
             else [ConvLearner.accuracy]))
  ∧ (∀ ms, ConvLearner.kw_metrics kwargs = Some ms →
           ConvLearner.metrics l = Some ms)
  ∧ (Data.is_reg d = true →
     ConvLearner.metrics l = ConvLearner.kw_metrics kwargs).
Proof.
  intros H. apply init_inv in H as (self1 & w1 & Hsave & _ & ->).
  assert (ConvLearner.crit self1
          = ConvLearner.crit (configured d models kwargs)
          ∧ ConvLearner.metrics self1
            = ConvLearner.metrics (configured d models kwargs)) as [Hc Hm].
  { destruct pc; [|by destruct Hsave as [-> _]].
    apply save_fc1_inv in Hsave
      as (n0 & n1 & n2 & u & _ & _ & _ & _ & _ & _ & _ & _ & _ & _ & ->);
      [done|apply configured_precompute]. }
  cbn [ConvLearner.crit ConvLearner.metrics ConvLearner.set_precompute].
  rewrite Hc, Hm. unfold configured.
  destruct (Data.is_reg d), (Data.is_multi d), kwargs as [[ms|] tp cr];
    cbn; repeat split; try done; by intros ? [= <-].
Qed.

Lemma before_cache_calls mid rest :
  Forall is_cache_call mid →
  before CFreeze CSaveFc1 (mid ++ CFreeze :: rest)
  = bool_decide (CSaveFc1 ∈ rest).
Proof.
  induction 1 as [|c mid Hc _ IH]; cbn [app before].
  - by rewrite decide_True.
  - rewrite decide_False; [exact IH|]. by destruct c.
Qed.

(** C3, as the code has it: in every construction with [precompute] on
    that returns, [save_fc1] runs first and [freeze] after it.  The calls
    of the construction are [save_fc1], what it calls to fill the cache,
    then [freeze] and its [freeze_to(-1)]; no [freeze] comes before
    [save_fc1]. *)
Theorem init_caches_then_freezes d models kwargs w l w' :
  init d models true kwargs w = Ok (l, w') →
  ∃ mid,
    let made := CSaveFc1 :: mid ++ [CFreeze; CFreezeTo (-1)] in
    calls w' = calls w ++ made
    ∧ Forall is_cache_call mid
    ∧ before CSaveFc1 CFreeze made = true
    ∧ before CFreeze CSaveFc1 made = false.
Proof.
  intros H. apply init_inv in H as (self1 & w1 & Hsave & Hfreeze & ->).
  apply save_fc1_inv in Hsave
    as (n0 & n1 & n2 & u & _ & H01 & H02 & H12 & Hu & _ & _ & _ & _ & -> & _);
    [|apply configured_precompute].
  apply freeze_calls in Hfreeze.
  rewrite (fill_arrays_calls _ _ n0 n1 n2 H01 H02 H12), Hu in Hfreeze.
  set (ps := predict_calls _ n0 n1 n2 u) in *.
  exists (CGetActivations false :: ps).
  assert (Hmid : Forall is_cache_call (CGetActivations false :: ps))
    by (constructor; [done|apply predict_calls_cache]).
  split; [|split; [exact Hmid|split]].
  - rewrite Hfreeze. cbn. by rewrite <-!app_assoc.
  - cbn [before]. rewrite decide_True by done.
    apply bool_decide_eq_true. set_solver.
  - cbn [before]. rewrite decide_False by done.
    rewrite (before_cache_calls _ _ Hmid).
    apply bool_decide_eq_false. set_solver.
Qed.

(** Without [precompute] the construction always returns, having called
    [freeze] only. *)
Lemma init_plain_returns d models kwargs w :
  ∃ l w', init d models false kwargs w = Ok (l, w')
    ∧ calls w' = calls w ++ [CFreeze; CFreezeTo (-1)]
    ∧ ConvLearner.precompute l = false.
Proof.
  unfold ConvLearner.__init__.
  set (conf := if Data.is_reg d then _ else _).
  assert (Hconf : conf w = Ok (configured d models kwargs, w)).
  { subst conf. unfold configured. destruct (Data.is_reg d); [done|].
    by destruct (ConvLearner.metrics _). }
  rewrite (bind_run _ _ _ _ _ Hconf).
  rewrite (bind_run _ _ w (configured d models kwargs) w eq_refl).
  destruct (freeze_returns (configured d models kwargs) w)
    as (w2 & Hrun & Hc).
  rewrite (bind_run _ _ _ _ _ Hrun).
  eexists _, w2. split; [reflexivity|].
  split; [exact Hc|reflexivity].
Qed.
End LearnerProperties.

Section Summary.
Variable Learner_summary : ConvLearner.t -> M (ConvLearner.t * string).

(** C9: [summary] leaves [precompute] as it found it.  The base class is
    asked for the summary of a learner whose [precompute] is off, whose
    model is therefore the full model, and the flag is put back. *)
Theorem summary_restores_precompute self w self' res w' :
  ConvLearner.summary Learner_summary self w = Ok ((self', res), w') →
  ConvLearner.precompute self' = ConvLearner.precompute self
  ∧ ∃ seen u,
      Learner_summary (ConvLearner.set_precompute false self)
        (set_calls (calls w ++ [CSummary]) w) = Ok ((seen, res), u)
      ∧ ConvLearner.model (ConvLearner.set_precompute false self)
        = ConvnetBuilder.model (ConvLearner.models self)
      ∧ self' = ConvLearner.set_precompute (ConvLearner.precompute self) seen.
Proof.
  unfold ConvLearner.summary. cbn [bind log modify]. intros H.
  inv_bind H as r u Hsum. destruct r as [seen res'].
  inversion H; subst; clear H.
  split; [reflexivity|]. by exists seen, w'.
Qed.
End Summary.

(** * The small learner, run *)

Lemma tiny_builder_run : Tiny.builder Tiny.world = Ok (Tiny.models, Tiny.built).
Proof. reflexivity. Qed.

(** [ConvLearner.pretrained(tiny, data, xtra_cut=1)], with [precompute]
    left at [True], builds that builder and that learner. *)
Lemma tiny_pretrained_run :
  ConvLearner.pretrained Tiny.forward Tiny.from_arrays Tiny.create
    Tiny.cut_model Tiny.num_features (other_arch "tiny") Tiny.data None None 1
    true Tiny.kwargs Tiny.world
  = Tiny.learner Tiny.built.
Proof. by vm_compute. Qed.

Lemma tiny_loaders_cover : loaders_cover Tiny.data.
Proof. repeat split. intros dl [=]. Qed.

(** C1 on the small learner, built with [precompute] on. *)
Lemma precompute_exposes_head_only_witness :
  ∃ l w,
    Tiny.learner Tiny.built = Ok (l, w)
    ∧ ConvLearner.precompute l = true
    ∧ ConvLearner.model l = Mod 16 Sequential Tiny.head
    ∧ ConvLearner.get_layer_groups l = [LGModule (Mod 16 Sequential Tiny.head)].
Proof.
  destruct (Tiny.learner Tiny.built) as [[l w]|e] eqn:E;
    [|vm_compute in E; discriminate].
  vm_compute in E. injection E as <- <-.
  eexists _, _. split; [reflexivity|]. split; [reflexivity|].
  match goal with |- ConvLearner.model ?l = _ ∧ _ =>
    destruct (precompute_exposes_head_only l eq_refl) as (Hm & _ & Hg & _)
  end.
  split; [exact Hm|exact Hg].
Defined.

(** C5 on the small builder, a single-label classifier. *)
Lemma final_activation_by_task_witness :
  ∃ b w',
    Tiny.builder Tiny.world = Ok (b, w')
    ∧ ∃ body ni,
        map kind_of (children (ConvnetBuilder.fc_model b))
        = body ++ [Linear ni 2; LogSoftmax].
Proof.
  destruct (Tiny.builder Tiny.world) as [[b w']|e] eqn:E; [|discriminate].
  exists b, w'. split; [reflexivity|].
  exact (final_activation_by_task Tiny.create Tiny.cut_model Tiny.num_features
           _ _ _ _ _ _ _ _ _ _ E).
Defined.

(** C7 on the small builder: an architecture outside [model_meta], cut one
    layer early. *)
Lemma backbone_cut_then_adapter_witness :
  ∃ b w',
    Tiny.builder Tiny.world = Ok (b, w')
    ∧ ConvnetBuilder.lr_cut b = 0
    ∧ ∃ net w1 pool flat,
        Tiny.create (other_arch "tiny") true Tiny.world = Ok (net, w1)
        ∧ kind_of (ConvnetBuilder.top_model b) = Sequential
        ∧ children (ConvnetBuilder.top_model b)
          = Tiny.cut_model net (0 - 1) ++ [pool; flat]
        ∧ kind_of pool = AdaptiveConcatPool2d
        ∧ kind_of flat = Flatten.
Proof.
  destruct (Tiny.builder Tiny.world) as [[b w']|e] eqn:E; [|discriminate].
  exists b, w'. split; [reflexivity|].
  exact (backbone_cut_then_adapter Tiny.create Tiny.cut_model
           Tiny.num_features _ _ _ _ _ _ _ _ _ _ E).
Defined.

(** C10 on a head of three blocks, all with dropout 0.5. *)
Lemma single_dropout_replicated_witness :
  ∃ b w',
    ConvnetBuilder.__init__ Tiny.create Tiny.cut_model Tiny.num_features
      (other_arch "tiny") 2 false false
      (Some (ConvnetBuilder.DropNum 0.5%float)) (Some [512; 256]) 1 Tiny.world
    = Ok (b, w')
    ∧ ConvnetBuilder.dropout_percs b = [0.5%float; 0.5%float; 0.5%float]
    ∧ map kind_of (children (ConvnetBuilder.fc_model b))
      = [BatchNorm1d 1024; Dropout 0.5; Linear 1024 512; ReLU;
         BatchNorm1d 512; Dropout 0.5; Linear 512 256; ReLU;
         BatchNorm1d 256; Dropout 0.5; Linear 256 2; LogSoftmax].
Proof.
  destruct (ConvnetBuilder.__init__ Tiny.create Tiny.cut_model
              Tiny.num_features (other_arch "tiny") 2 false false
              (Some (ConvnetBuilder.DropNum 0.5%float)) (Some [512; 256]) 1
              Tiny.world) as [[b w']|e] eqn:E; [|vm_compute in E; discriminate].
  destruct (single_dropout_replicated Tiny.create Tiny.cut_model
              Tiny.num_features (other_arch "tiny") 2 false false 0.5%float
              (Some [512; 256]) 1 Tiny.world b w' E)
    as (Hdp & Hk & _).
  exists b, w'. split; [reflexivity|].
  vm_compute in E. injection E as <- <-.
  split; [exact Hdp|exact Hk].
Defined.

(** C2 on the small learner: two calls of [save_fc1] in a row. *)
Lemma save_fc1_again_computes_nothing_witness :
  ∃ self1 w1 self2 w2,
    ConvLearner.save_fc1 Tiny.forward Tiny.from_arrays Tiny.plain Tiny.built
    = Ok (self1, w1)
    ∧ ConvLearner.save_fc1 Tiny.forward Tiny.from_arrays self1 w1
      = Ok (self2, w2)
    ∧ disk w2 = disk w1
    ∧ calls w2 = calls w1 ++ [CSaveFc1; CGetActivations false].
Proof.
  destruct (ConvLearner.save_fc1 Tiny.forward Tiny.from_arrays Tiny.plain
              Tiny.built) as [[self1 w1]|e] eqn:E;
    [|vm_compute in E; discriminate].
  destruct (save_fc1_again_computes_nothing Tiny.forward Tiny.from_arrays
              Tiny.plain Tiny.built self1 w1 eq_refl tiny_loaders_cover E)
    as (n0 & n1 & n2 & _ & _ & (self2 & w2 & Hrun & _ & Hd & Hc) & _).
  by exists self1, w1, self2, w2.
Defined.

(** C6 on the small learner: a single-label task without metrics. *)
Lemma init_loss_and_metrics_witness :
  ∃ l w,
    Tiny.learner Tiny.built = Ok (l, w)
    ∧ ConvLearner.crit l = Some ConvLearner.nll_loss
    ∧ ConvLearner.metrics l = Some [ConvLearner.accuracy].
Proof.
  destruct (Tiny.learner Tiny.built) as [[l w]|e] eqn:E;
    [|vm_compute in E; discriminate].
  destruct (init_loss_and_metrics Tiny.forward Tiny.from_arrays Tiny.data
              Tiny.models true Tiny.kwargs Tiny.built l w E)
    as (Hc & Hm & _).
  exists l, w. split; [reflexivity|]. split; [exact Hc|]. by apply Hm.
Defined.

(** C3, as the code has it, on the small learner. *)
Lemma init_caches_then_freezes_witness :
  ∃ l w mid,
    Tiny.learner Tiny.built = Ok (l, w)
    ∧ calls w = CSaveFc1 :: mid ++ [CFreeze; CFreezeTo (-1)]
    ∧ Forall is_cache_call mid.
Proof.
  destruct (Tiny.learner Tiny.built) as [[l w]|e] eqn:E;
    [|vm_compute in E; discriminate].
  destruct (init_caches_then_freezes Tiny.forward Tiny.from_arrays Tiny.data
              Tiny.models Tiny.kwargs Tiny.built l w E)
    as (mid & Hc & Hmid & _).
  by exists l, w, mid.
Defined.

(** C3 as the specification states it fails: in the construction of the small learner
    with [precompute] on, no [freeze] comes before [save_fc1]; [save_fc1]
    is the first call and [freeze] follows the caching. *)
Lemma init_freeze_not_before_save_fc1 :
  ∃ l w,
    Tiny.learner Tiny.built = Ok (l, w)
    ∧ calls Tiny.built = []
    ∧ before CFreeze CSaveFc1 (calls w) = false
    ∧ before CSaveFc1 CFreeze (calls w) = true.
Proof.
  destruct (Tiny.learner Tiny.built) as [[l w]|e] eqn:E;
    [|vm_compute in E; discriminate].
  vm_compute in E. injection E as <- <-.
  eexists _, _. split; [reflexivity|]. by vm_compute.
Qed.

(** C9 on the small learner with [precompute] on. *)
Lemma summary_restores_precompute_witness :
  ∃ self' res w',
    ConvLearner.summary Tiny.Learner_summary
      (ConvLearner.set_precompute true Tiny.plain) Tiny.built
    = Ok ((self', res), w')
    ∧ ConvLearner.precompute self' = true.
Proof.
  destruct (ConvLearner.summary Tiny.Learner_summary
              (ConvLearner.set_precompute true Tiny.plain) Tiny.built)
    as [[[self' res] w']|e] eqn:E; [|discriminate].
  exists self', res, w'. split; [reflexivity|].
  exact (proj1 (summary_restores_precompute Tiny.Learner_summary
                  _ _ _ _ _ E)).
Defined.

(** C4 at the learner [ConvLearner.pretrained] returns by default, with
    [precompute] on: after [unfreeze] the flag is off and the model is the
    full one, yet the backbone's layer group is still frozen.  [freeze_to(0)]
    ran while the learner's layer groups were the head alone. *)
Theorem unfreeze_after_precompute_keeps_backbone_frozen :
  ∃ l w l' w',
    Tiny.learner Tiny.built = Ok (l, w)
    ∧ ConvLearner.precompute l = true
    ∧ ConvLearner.unfreeze l w = Ok (l', w')
    ∧ ConvLearner.precompute l' = false
    ∧ ConvLearner.model l' = ConvnetBuilder.model Tiny.models
    ∧ LGList (Tiny.backbone ++ Tiny.adapter) ∈ ConvLearner.get_layer_groups l'
    ∧ 0%nat ∈ group_ids (LGList (Tiny.backbone ++ Tiny.adapter))
    ∧ 0%nat ∈ frozen w'
    ∧ ¬ all_trainable (ConvLearner.get_layer_groups l') w'.
Proof.
  destruct (Tiny.learner Tiny.built) as [[l w]|e] eqn:E;
    [|vm_compute in E; discriminate].
  vm_compute in E. injection E as <- <-.
  match goal with |- ∃ l w l' w', Ok (?a, ?b) = _ ∧ _ =>
    destruct (ConvLearner.unfreeze a b) as [[l' w']|e] eqn:E';
      [|vm_compute in E'; discriminate]
  end.
  vm_compute in E'. injection E' as <- <-.
  eexists _, _, _, _. split; [reflexivity|]. split; [reflexivity|].
  split; [by vm_compute|]. split; [reflexivity|]. split; [reflexivity|].
  assert (Hg : LGList (Tiny.backbone ++ Tiny.adapter)
               ∈ [LGList []; LGList (Tiny.backbone ++ Tiny.adapter);
                  LGModule (Mod 16 Sequential Tiny.head)]) by set_solver.
  assert (Hi : 0%nat ∈ group_ids (LGList (Tiny.backbone ++ Tiny.adapter)))
    by (cbn; set_solver).
  split; [exact Hg|]. split; [exact Hi|].
  match goal with |- ?P ∧ _ => assert (Hfr : P) end.
  { apply (bool_decide_unpack _). by vm_compute. }
  split; [exact Hfr|]. intros Hall. exact (Hall _ _ Hg Hi Hfr).
Qed.


(** * Further properties of the builder *)

Lemma bind_raise {A B} (m : M A) (f : A -> M B) w e :
  m w = Raise e → bind m f w = Raise e.
Proof. unfold bind. by intros ->. Qed.

Lemma py_index_minus_one {A} (l : list A) :
  py_index l (-1) = match last l with
                    | Some x => Ok x
                    | None => Raise IndexError
                    end.
Proof.
  unfold py_index. cbv zeta. cbn [Z.ltb Z.compare].
  destruct l as [|a l]; [reflexivity|].
  rewrite last_lookup. cbn [length].
  destruct (Z.ltb_spec (Z.of_nat (S (length l)) + -1) 0); [lia|].
  replace (Z.to_nat (Z.of_nat (S (length l)) + -1)) with (length l) by lia.
  reflexivity.
Qed.

Lemma py_index_Ok_at {A} (l : list A) (i : Z) (x : A) :
  0 <= i → py_index l i = Ok x → l !! Z.to_nat i = Some x.
Proof.
  intros Hi. unfold py_index. cbv zeta.
  rewrite !(proj2 (Z.ltb_ge i 0)) by lia.
  by destruct (l !! Z.to_nat i); intros [=->].
Qed.

(** The loop over the hidden widths, when it returns: it found a
    probability for every width, each zero or accepted by [nn.Dropout], and
    built block [i] with the probability at index [i]. *)
Lemma fc_hidden_Ok ps xs :
  ∀ i ni res w res' ni' w',
    0 <= i →
    ConvnetBuilder.fc_hidden ps xs i ni res w = Ok ((res', ni'), w') →
    (xs = [] ∨ (Z.to_nat i + length xs <= length ps)%nat)
    ∧ ni' = List.last xs ni
    ∧ Forall (fun p => dropout_ok p = true)
        (take (length xs) (drop (Z.to_nat i) ps))
    ∧ ∃ blk, res' = res ++ blk
        ∧ map kind_of blk = hidden_kinds_by ni xs (drop (Z.to_nat i) ps).
Proof.
  induction xs as [|nf rest IH]; intros i ni res w res' ni' w' Hi H.
  - injection H as <- <- <-. split; [by left|]. split; [done|].
    split; [by rewrite take_0|]. exists []. by rewrite app_nil_r.
  - cbn [ConvnetBuilder.fc_hidden] in H.
    inv_bind H as p w0 Hp. apply lift_Ok in Hp as [Hp ->].
    apply (py_index_Ok_at _ _ _ Hi) in Hp.
    inv_bind H as actn w1 Hactn. apply new_Ok in Hactn as [-> ->].
    inv_bind H as blk w2 Hblk.
    apply create_fc_layer_Ok in Hblk as [Hok Hk].
    apply IH in H as (Hlen & -> & Hall & blk' & -> & Hk'); [|lia].
    replace (Z.to_nat (i + 1)) with (S (Z.to_nat i)) in * by lia.
    pose proof (lookup_lt_Some _ _ _ Hp) as Hlt.
    rewrite (drop_S _ _ _ Hp).
    split; [right; cbn [length]; destruct Hlen as [->|?]; cbn; lia|].
    split; [by destruct (last_cons_default nf ni ni rest) as [-> _]|].
    split; [cbn [length take]; by constructor|].
    exists (blk ++ blk'). split; [by rewrite app_assoc|].
    rewrite map_app, Hk, Hk'. reflexivity.
Qed.

(** The head, when [get_fc_layers] returns. *)
Lemma get_fc_layers_of_Ok nf xs ps im ir lls w layers w' :
  ConvnetBuilder.get_fc_layers_of nf xs ps im ir lls w = Ok (layers, w') →
  (length xs <= length ps)%nat
  ∧ Forall (fun p => dropout_ok p = true) (take (length xs) ps)
  ∧ ∃ pl, last ps = Some pl ∧ dropout_ok pl = true
      ∧ map kind_of layers
        = hidden_kinds_by nf xs ps
          ++ block_kinds (List.last xs nf) lls pl (final_kinds im ir).
Proof.
  unfold ConvnetBuilder.get_fc_layers_of. intros H.
  inv_bind H as hidden w0 Hhid. destruct hidden as [res ni].
  apply fc_hidden_Ok in Hhid as (Hlen & -> & Hall & blk & Hres & Hk); [|lia].
  cbn [app] in Hres. subst res. change (Z.to_nat 0) with 0%nat in *.
  rewrite drop_0 in *.
  inv_bind H as actn w1 Hactn.
  inv_bind H as p w2 Hp. apply lift_Ok in Hp as [Hp ->].
  rewrite py_index_minus_one in Hp.
  destruct (last ps) as [pl|] eqn:Hlast; [|discriminate].
  injection Hp as ->.
  inv_bind H as fin w3 Hfin. injection H as <- <-.
  apply create_fc_layer_Ok in Hfin as [Hok Hkf].
  split.
  { destruct Hlen as [->|?]; [cbn|]; lia. }
  split; [exact Hall|]. exists p. split; [done|]. split; [exact Hok|].
  rewrite map_app, Hk, Hkf. do 2 f_equal.
  unfold final_kinds. destruct ir; [done|].
  destruct im; apply new_Ok in Hactn as [-> _]; reflexivity.
Qed.

(** Without a single probability, [get_fc_layers] raises [IndexError]
    before it builds any layer. *)
Lemma get_fc_layers_of_empty nf xs im ir lls w :
  ConvnetBuilder.get_fc_layers_of nf xs [] im ir lls w = Raise IndexError.
Proof.
  unfold ConvnetBuilder.get_fc_layers_of.
  destruct xs as [|x rest]; [|reflexivity].
  cbn [ConvnetBuilder.fc_hidden]. unfold bind at 1. cbn [ret].
  by destruct im.
Qed.

(** A probability that [nn.Dropout] refuses, given as a single number,
    stops [get_fc_layers] at the first block. *)
Lemma get_fc_layers_of_refused nf xs p im ir lls w :
  dropout_ok p = false →
  ConvnetBuilder.get_fc_layers_of nf xs (repeat p (length xs + 1)) im ir lls w
  = Raise ValueError.
Proof.
  intros Hok. unfold ConvnetBuilder.get_fc_layers_of.
  destruct xs as [|x rest].
  - cbn [ConvnetBuilder.fc_hidden]. unfold bind at 1. cbn [ret].
    set (fin := if im then new Sigmoid [] else new LogSoftmax []).
    destruct (fin w) as [[actn w4]|e] eqn:Hfin;
      [|subst fin; destruct im; discriminate].
    rewrite (bind_run _ _ _ _ _ Hfin).
    rewrite (bind_run _ _ w4 p w4) by reflexivity.
    erewrite bind_raise; [reflexivity|]. by apply create_fc_layer_raises.
  - cbn [ConvnetBuilder.fc_hidden]. unfold bind at 1.
    rewrite (bind_run _ _ w p w) by reflexivity.
    rewrite (bind_run _ _ w _ _ eq_refl).
    erewrite bind_raise; [reflexivity|]. by apply create_fc_layer_raises.
Qed.

Lemma py_slice_zero {A} (l : list A) :
  py_slice l 0 0 = [] ∧ py_slice_from l 0 = l.
Proof.
  unfold py_slice, py_slice_from, slice_bound. cbn.
  by rewrite Nat.sub_diag, drop_0.
Qed.

Section BuilderEdges.
Variable create : Arch -> bool -> M Module.
Variable cut_model : Module -> Z -> list Module.
Variable num_features : list Module -> option Z.

Local Abbreviation init := (ConvnetBuilder.__init__ create cut_model num_features).

(** The constructor up to the head, once the backbone is there and its
    number of features is known: from there on it fails when
    [get_fc_layers] fails. *)
Lemma init_head_raise f lls im ir dp xf xc w net w1 nf e :
  create f true w = Ok (net, w1) →
  features_of num_features f (cut_model net (ConvnetBuilder.cut_of f xc).1)
  = Some nf →
  (∀ u, ConvnetBuilder.get_fc_layers_of nf (hidden_widths xf)
          (dropout_list dp (length (hidden_widths xf) + 1)) im ir lls u
        = Raise e) →
  init f lls im ir dp xf xc w = Raise e.
Proof.
  intros Hnet Hnf Hr. unfold ConvnetBuilder.__init__.
  destruct (ConvnetBuilder.cut_of f xc) as [cut lrc]. cbn [fst] in Hnf.
  rewrite (bind_run _ _ _ _ _ Hnet).
  assert (Hstep : (match model_features f with
                   | Some n => ret n
                   | None => match num_features (cut_model net cut) with
                             | Some n => ret (n * 2)
                             | None => raise TypeError
                             end
                   end) w1 = Ok (nf, w1)).
  { unfold features_of in Hnf. destruct (model_features f) as [n|].
    - by injection Hnf as ->.
    - destruct (num_features (cut_model net cut)) as [n|]; [|discriminate].
      by injection Hnf as <-. }
  rewrite (bind_run _ _ _ _ _ Hstep). cbn [bind new].
  assert (Hdp : match match dp with
                      | Some d => d
                      | None => ConvnetBuilder.DropList [0.25%float; 0.5%float]
                      end with
                | ConvnetBuilder.DropNum p =>
                    repeat p (length (hidden_widths xf) + 1)
                | ConvnetBuilder.DropList l => l
                end = dropout_list dp (length (hidden_widths xf) + 1))
    by (destruct dp as [[p|l]|]; reflexivity).
  fold (hidden_widths xf). rewrite Hdp.
  erewrite bind_raise; [reflexivity|apply Hr].
Qed.

(** X1: in every builder the constructor returns, hidden block [i] of the
    head is built with the dropout probability at index [i] and the final
    block with the last probability of the list, whatever lies in between;
    the list has at least as many entries as there are hidden widths, and
    every probability used is zero or one that [nn.Dropout] accepts. *)
Theorem head_blocks_by_dropout_list f lls im ir dp xf xc w b w' :
  init f lls im ir dp xf xc w = Ok (b, w') →
  let xs := ConvnetBuilder.xtra_fc b in
  let ps := ConvnetBuilder.dropout_percs b in
  xs = hidden_widths xf
  ∧ ps = dropout_list dp (length xs + 1)
  ∧ (length xs <= length ps)%nat
  ∧ Forall (fun p => dropout_ok p = true) (take (length xs) ps)
  ∧ ∃ pl, last ps = Some pl ∧ dropout_ok pl = true
      ∧ map kind_of (children (ConvnetBuilder.fc_model b))
        = hidden_kinds_by (ConvnetBuilder.nf b) xs ps
          ++ block_kinds (List.last xs (ConvnetBuilder.nf b)) lls pl
               (final_kinds im ir).
Proof.
  intros H. apply init_Ok in H
    as (net & w1 & nf & pool & flat & top & fcl & w2 & fcm & w3
        & _ & _ & _ & _ & _ & _ & Hfc & _ & Hch & ->).
  cbn [ConvnetBuilder.xtra_fc ConvnetBuilder.dropout_percs
       ConvnetBuilder.fc_model ConvnetBuilder.nf].
  cbv zeta. fold (hidden_widths xf).
  split; [reflexivity|]. split; [by destruct dp as [[p|l]|]|].
  rewrite Hch. by apply get_fc_layers_of_Ok in Hfc.
Qed.

(** X2: an empty list of dropout probabilities makes the constructor raise
    [IndexError], once the backbone is there and its number of features
    is known. *)
Theorem empty_dropout_list_raises f lls im ir xf xc w net w1 nf :
  create f true w = Ok (net, w1) →
  features_of num_features f (cut_model net (ConvnetBuilder.cut_of f xc).1)
  = Some nf →
  init f lls im ir (Some (ConvnetBuilder.DropList [])) xf xc w
  = Raise IndexError.
Proof.
  intros Hnet Hnf.
  apply (init_head_raise _ _ _ _ _ _ _ _ _ _ _ _ Hnet Hnf).
  intros u. apply get_fc_layers_of_empty.
Qed.

(** X3: a single dropout number that is not zero and lies below 0 or
    above 1 makes the constructor raise [ValueError], once the backbone is
    there and its number of features is known. *)
Theorem refused_dropout_number_raises f lls im ir p xf xc w net w1 nf :
  create f true w = Ok (net, w1) →
  features_of num_features f (cut_model net (ConvnetBuilder.cut_of f xc).1)
  = Some nf →
  dropout_ok p = false →
  init f lls im ir (Some (ConvnetBuilder.DropNum p)) xf xc w
  = Raise ValueError.
Proof.
  intros Hnet Hnf Hok.
  apply (init_head_raise _ _ _ _ _ _ _ _ _ _ _ _ Hnet Hnf).
  intros u. by apply get_fc_layers_of_refused.
Qed.

(** X4: the number of features of the head's input is the architecture's
    entry of [model_features], or else twice what [num_features] finds in
    the cut backbone; when it finds nothing, the constructor raises
    [TypeError]. *)
Theorem features_from_table_or_backbone f lls im ir dp xf xc w net w1 :
  create f true w = Ok (net, w1) →
  let layers := cut_model net (ConvnetBuilder.cut_of f xc).1 in
  (features_of num_features f layers = None →
   init f lls im ir dp xf xc w = Raise TypeError)
  ∧ (∀ b w', init f lls im ir dp xf xc w = Ok (b, w') →
             features_of num_features f layers = Some (ConvnetBuilder.nf b)).
Proof.
  intros Hnet layers. split.
  - intros Hnone. unfold ConvnetBuilder.__init__. subst layers.
    destruct (ConvnetBuilder.cut_of f xc) as [cut lrc]. cbn [fst] in Hnone.
    rewrite (bind_run _ _ _ _ _ Hnet).
    unfold features_of in Hnone.
    destruct (model_features f) as [n|]; [discriminate|].
    by destruct (num_features (cut_model net cut)) as [n|].
  - intros b w' H. apply init_Ok in H
      as (net' & w1' & nf & pool & flat & top & fcl & w2 & fcm & w3
          & Hnet' & Hnf & _ & _ & _ & _ & _ & _ & _ & ->).
    rewrite Hnet in Hnet'. injection Hnet' as <- <-.
    subst layers. unfold features_of. cbn [ConvnetBuilder.nf].
    destruct (model_features f) as [n|]; [by subst|].
    destruct Hnf as (n & -> & ->). reflexivity.
Qed.

(** X5: the three networks of a builder are made of the same layer
    objects: the full model's children are the children of [top_model]
    followed by the children of [fc_model], and [n_fc] counts the layers of
    the head. *)
Theorem builder_models_share_layers f lls im ir dp xf xc w b w' :
  init f lls im ir dp xf xc w = Ok (b, w') →
  kind_of (ConvnetBuilder.model b) = Sequential
  ∧ children (ConvnetBuilder.model b)
    = children (ConvnetBuilder.top_model b)
      ++ children (ConvnetBuilder.fc_model b)
  ∧ ConvnetBuilder.n_fc b = length (children (ConvnetBuilder.fc_model b))
  ∧ flat_map module_ids (children (ConvnetBuilder.model b))
    = flat_map module_ids (children (ConvnetBuilder.top_model b))
      ++ flat_map module_ids (children (ConvnetBuilder.fc_model b)).
Proof.
  intros H. apply init_Ok in H
    as (net & w1 & nf & pool & flat & top & fcl & w2 & fcm & w3
        & _ & _ & _ & _ & _ & _ & _ & _ & Hch & ->).
  cbn. rewrite Hch. repeat split; try reflexivity. apply flat_map_app.
Qed.

(** X6: for an architecture that is not in [model_meta] the cut is
    [-xtra_cut] and [lr_cut] is 0, so the first layer group is empty and
    the second holds every child of [top_model]. *)
Theorem unknown_arch_one_backbone_group f lls im ir dp xf xc w b w' :
  model_meta f = None →
  init f lls im ir dp xf xc w = Ok (b, w') →
  ConvnetBuilder.lr_cut b = 0
  ∧ ConvnetBuilder.get_layer_groups b false
    = [LGList []; LGList (split_children b);
       LGModule (ConvnetBuilder.fc_model b)]
  ∧ ∃ net w1 pool flat,
      create f true w = Ok (net, w1)
      ∧ children (ConvnetBuilder.top_model b)
        = cut_model net (- xc) ++ [pool; flat].
Proof.
  intros Hmeta H. apply init_Ok in H
    as (net & w1 & nf & pool & flat & top & fcl & w2 & fcm & w3
        & Hnet & _ & _ & _ & _ & Hch & _ & _ & _ & ->).
  rewrite cut_of_meta, Hmeta in *. cbn [fst snd] in *.
  match goal with |- ConvnetBuilder.lr_cut ?r = 0 ∧ _ => set (b := r) end.
  split; [reflexivity|]. split.
  - destruct (layer_groups_split b) as [Hg _]. rewrite Hg.
    change (ConvnetBuilder.lr_cut b) with 0.
    by destruct (py_slice_zero (split_children b)) as [-> ->].
  - exists net, w1, pool, flat. split; [exact Hnet|].
    cbn. rewrite Hch. by replace (0 - xc) with (- xc) by lia.
Qed.

End BuilderEdges.


(** * Further properties of the learner *)

Lemma names_distinct self d n0 n1 n2 :
  activation_names self d = [n0; n1; n2] → n0 ≠ n1 ∧ n0 ≠ n2 ∧ n1 ≠ n2.
Proof.
  intros Hn. destruct (activation_names_distinct self d)
    as (m0 & m1 & m2 & Hm & H).
  rewrite Hn in Hm. by injection Hm as -> -> ->.
Qed.

Lemma created_lookup n0 n1 n2 force w x :
  disk (created n0 n1 n2 force w) !! x
  = if decide (x ∈ [n0; n1; n2]) then Some [] else disk w !! x.
Proof.
  unfold created. cbn [disk set_disk set_calls].
  destruct (decide (x ∈ [n0; n1; n2])) as [Hin|Hout].
  - destruct (decide (n2 = x)) as [->|?]; [by rewrite lookup_insert_eq|].
    rewrite lookup_insert_ne by done.
    destruct (decide (n1 = x)) as [->|?]; [by rewrite lookup_insert_eq|].
    rewrite lookup_insert_ne by done.
    destruct (decide (n0 = x)) as [->|?]; [by rewrite lookup_insert_eq|].
    set_solver.
  - rewrite !lookup_insert_ne; [done|set_solver..].
Qed.

Section LearnerEdges.
Variable forward : Module -> Tensor -> Tensor.
Variable from_arrays :
  string -> string * list Z -> string * list Z -> Z -> list string ->
  option string -> World -> Data.t.

Local Abbreviation save_fc1 := (ConvLearner.save_fc1 forward from_arrays).
Local Abbreviation init := (ConvLearner.__init__ forward from_arrays).
Local Abbreviation set_data := (ConvLearner.set_data forward from_arrays).

Lemma get_activations_create self force w n0 n1 n2 :
  ConvLearner.precompute self = false →
  activation_names self (ConvLearner.data_ self) = [n0; n1; n2] →
  force = true ∨ disk w !! n0 = None →
  ConvLearner.get_activations self force w
  = Ok (ConvLearner.set_activations (Some [n0; n1; n2]) self,
        created n0 n1 n2 force w).
Proof.
  intros Hpre Hn Hnew.
  rewrite (get_activations_unfold self force w (ConvLearner.data_ self)
             n0 n1 n2); [|by unfold ConvLearner.data; rewrite Hpre|done].
  assert (bool_decide (is_Some (disk w !! n0)) && negb force = false) as ->.
  { destruct Hnew as [->|Hnone]; [by rewrite andb_false_r|].
    rewrite bool_decide_eq_false_2; [done|]. rewrite Hnone. by intros [? ?]. }
  reflexivity.
Qed.

(** X8: with [force], or when the first array is not on disk,
    a [get_activations] that returns has made the three arrays anew and
    empty, replacing whatever was stored under their names, and has
    touched nothing else on disk. *)
Theorem get_activations_creates_empty self force w self' w' n0 n1 n2 :
  ConvLearner.precompute self = false →
  activation_names self (ConvLearner.data_ self) = [n0; n1; n2] →
  force = true ∨ disk w !! n0 = None →
  ConvLearner.get_activations self force w = Ok (self', w') →
  ConvLearner.activations self' = Some [n0; n1; n2]
  ∧ ∀ x, disk w' !! x
         = if decide (x ∈ [n0; n1; n2]) then Some [] else disk w !! x.
Proof.
  intros Hpre Hn Hnew H.
  rewrite (get_activations_create self force w n0 n1 n2 Hpre Hn Hnew) in H.
  injection H as <- <-. split; [reflexivity|]. apply created_lookup.
Qed.


Lemma stale_empty x k w :
  disk w !! x = Some [] → stale x k w = negb (Nat.eqb k 0).
Proof.
  intros E. unfold stale. rewrite E. cbn [default length].
  by rewrite Nat.eqb_sym.
Qed.

Lemma predict_calls_on_empty d n0 n1 n2 w :
  disk w !! n0 = Some [] → disk w !! n1 = Some [] → disk w !! n2 = Some [] →
  predict_calls d n0 n1 n2 w = first_predict_calls d n0 n1 n2.
Proof.
  intros E0 E1 E2. unfold predict_calls, first_predict_calls.
  rewrite (stale_empty n0 _ _ E0), (stale_empty n1 _ _ E1).
  destruct (Nat.eqb (length (Data.train_ds d)) 0),
    (Nat.eqb (length (Data.val_ds d)) 0),
    (Data.test_dl d) as [dl|]; try reflexivity;
    by rewrite (stale_empty n2 _ _ E2).
Qed.

(** X10: with no cache on disk, a [save_fc1] that returns has created the
    three arrays and called [predict_to_bcolz] once for each dataset that
    is not empty, the test set only with a test loader; when the loaders
    read their datasets in full, no array is stale afterwards. *)
Theorem save_fc1_without_cache self w self' w' n0 n1 n2 :
  ConvLearner.precompute self = false →
  activation_names self (ConvLearner.data_ self) = [n0; n1; n2] →
  disk w !! n0 = None →
  save_fc1 self w = Ok (self', w') →
  let d := ConvLearner.data_ self in
  ConvLearner.activations self' = Some [n0; n1; n2]
  ∧ is_Some (ConvLearner.fc_data self')
  ∧ calls w' = calls w ++ [CSaveFc1; CGetActivations false]
               ++ first_predict_calls d n0 n1 n2
  ∧ is_Some (disk w' !! n0) ∧ is_Some (disk w' !! n1)
  ∧ is_Some (disk w' !! n2)
  ∧ (loaders_cover d → predict_calls d n0 n1 n2 w' = []).
Proof.
  intros Hpre Hn Hnone H d.
  destruct (names_distinct _ _ _ _ _ Hn) as (H01 & H02 & H12).
  set (w0 := set_calls (calls w ++ [CSaveFc1]) w).
  pose proof (get_activations_create self false w0 n0 n1 n2 Hpre Hn
                (or_intror Hnone)) as Hget.
  pose proof (save_fc1_unfold forward from_arrays self w _ n0 n1 n2 Hpre Hget)
    as Hrun. cbv zeta in Hrun. fold d in Hrun.
  rewrite Hrun in H. injection H as <- <-. clear Hrun.
  set (m := ConvnetBuilder.top_model (ConvLearner.models self)) in *.
  set (u := created n0 n1 n2 false w0) in *.
  assert (E : ∀ x, x ∈ [n0; n1; n2] → disk u !! x = Some []).
  { intros x Hx. subst u. rewrite created_lookup. by rewrite decide_True. }
  split; [reflexivity|].
  split; [by eexists|]. split.
  { rewrite (fill_arrays_calls forward m d n0 n1 n2 H01 H02 H12).
    rewrite predict_calls_on_empty by (apply E; set_solver).
    subst u w0. cbn [calls created set_disk set_calls].
    by rewrite <-!app_assoc. }
  split; [apply fill_arrays_is_Some; rewrite E; [by eexists|set_solver]|].
  split; [apply fill_arrays_is_Some; rewrite E; [by eexists|set_solver]|].
  split; [apply fill_arrays_is_Some; rewrite E; [by eexists|set_solver]|].
  intros Hcov. by apply fill_arrays_fresh.
Qed.

(** X11: [save_fc1] changes the learner's activations and [fc_data], the
    disk and the log, and nothing else: the trainable flags, the
    [precompute] flag, the data, the models, the loss and the metrics are
    what they were. *)
Theorem save_fc1_frame self w self' w' :
  ConvLearner.precompute self = false →
  save_fc1 self w = Ok (self', w') →
  frozen w' = frozen w
  ∧ ConvLearner.precompute self' = false
  ∧ ConvLearner.data_ self' = ConvLearner.data_ self
  ∧ ConvLearner.models self' = ConvLearner.models self
  ∧ ConvLearner.crit self' = ConvLearner.crit self
  ∧ ConvLearner.metrics self' = ConvLearner.metrics self
  ∧ ConvLearner.tmp_path self' = ConvLearner.tmp_path self
  ∧ is_Some (ConvLearner.fc_data self').
Proof.
  intros Hpre H.
  apply save_fc1_inv in H
    as (n0 & n1 & n2 & u & _ & _ & _ & _ & _ & Hf & _ & _ & _ & -> & ->);
    [|done].
  rewrite fill_arrays_frozen, Hf. by repeat split.
Qed.

(** X12: the cache is found by name and judged by length alone.  After a
    first [save_fc1], a learner given other data of the same image size
    and the same dataset lengths computes nothing: the activations of the
    former data are taken for those of the new data. *)
Theorem save_fc1_reuses_cache_of_other_data self w self1 w1 d' :
  ConvLearner.precompute self = false →
  loaders_cover (ConvLearner.data_ self) →
  same_shape (ConvLearner.data_ self) d' →
  save_fc1 self w = Ok (self1, w1) →
  ∃ self2 w2,
    save_fc1 (ConvLearner.set_data_ d' self1) w1 = Ok (self2, w2)
    ∧ ConvLearner.data_ self2 = d'
    ∧ ConvLearner.activations self2 = ConvLearner.activations self1
    ∧ disk w2 = disk w1
    ∧ calls w2 = calls w1 ++ [CSaveFc1; CGetActivations false].
Proof.
  intros Hpre Hcov (Hsz & Htrain & Hval & Htest) H.
  set (d := ConvLearner.data_ self) in *.
  destruct (save_fc1_inv forward from_arrays self w self1 w1 Hpre H)
    as (n0 & n1 & n2 & u & Hn & H01 & H02 & H12 & _ & _ & E0 & E1 & E2
        & Hw1 & Hself1).
  fold d in Hn, Hw1, Hself1.
  set (m := ConvnetBuilder.top_model (ConvLearner.models self)) in *.
  pose proof (fill_arrays_fresh forward m d n0 n1 n2 H01 H02 H12 u Hcov)
    as Hfresh. rewrite <-Hw1 in Hfresh.
  set (selfd := ConvLearner.set_data_ d' self1).
  assert (Hpre' : ConvLearner.precompute selfd = false) by by subst selfd self1.
  assert (Hn' : activation_names selfd (ConvLearner.data_ selfd) = [n0; n1; n2]).
  { subst selfd self1. rewrite <-Hn. unfold activation_names.
    cbn [ConvLearner.data_ ConvLearner.set_data_ ConvLearner.models
         ConvLearner.tmp_path ConvLearner.set_fc_data with_cache
         ConvLearner.set_activations].
    by rewrite Hsz. }
  assert (F0 : is_Some (disk w1 !! n0))
    by (subst w1; by apply fill_arrays_is_Some).
  assert (F1 : is_Some (disk w1 !! n1))
    by (subst w1; by apply fill_arrays_is_Some).
  assert (F2 : is_Some (disk w1 !! n2))
    by (subst w1; by apply fill_arrays_is_Some).
  pose proof (save_fc1_reopen forward from_arrays selfd w1 n0 n1 n2
                Hpre' Hn' F0 F1 F2) as Hrun. cbv zeta in Hrun.
  set (w1' := set_calls (calls w1 ++ [CSaveFc1; CGetActivations false]) w1)
    in *.
  assert (Hnone : predict_calls d' n0 n1 n2 w1' = []).
  { unfold predict_calls in Hfresh |- *.
    apply app_eq_nil in Hfresh as [P0 P]. apply app_eq_nil in P as [P1 P2].
    change (stale n0 (length (Data.train_ds d')) w1')
      with (stale n0 (length (Data.train_ds d')) w1).
    change (stale n1 (length (Data.val_ds d')) w1')
      with (stale n1 (length (Data.val_ds d')) w1).
    rewrite Htrain, Hval.
    destruct (stale n0 _ w1); [done|]. destruct (stale n1 _ w1); [done|].
    cbn [app].
    destruct (Data.test_dl d') as [dl'|] eqn:Hdl'; [|done].
    destruct (Data.dl_truthy (Some dl')) eqn:Ht'; [|done].
    destruct (Htest dl' eq_refl Ht') as (dl & Hdl & Ht & Hlen).
    rewrite Hdl, Ht in P2. cbn [andb] in P2 |- *.
    change (stale n2 (length (Data.dataset dl')) w1')
      with (stale n2 (length (Data.dataset dl')) w1).
    rewrite <-Hlen. by destruct (stale n2 _ w1). }
  assert (Hd' : ConvLearner.data_ selfd = d') by done.
  rewrite Hd' in Hrun.
  rewrite (fill_arrays_same forward _ d' n0 n1 n2 _ Hnone) in Hrun.
  eexists _, _. split; [exact Hrun|].
  split; [done|]. split; [by subst self1|]. by split.
Qed.

(** *** Which modules a learner's layer groups hold *)

Lemma group_ids_full self i :
  ConvLearner.precompute self = false →
  i ∈ flat_map group_ids (ConvLearner.get_layer_groups self)
  ↔ i ∈ flat_map module_ids (split_children (ConvLearner.models self))
    ∨ i ∈ module_ids (ConvnetBuilder.fc_model (ConvLearner.models self)).
Proof.
  intros Hpre. unfold ConvLearner.get_layer_groups. rewrite Hpre.
  destruct (layer_groups_split (ConvLearner.models self)) as (Hg & Hc).
  rewrite Hg. cbn [flat_map group_ids]. rewrite !app_nil_r.
  rewrite (app_assoc (flat_map module_ids _)), <-flat_map_app, Hc.
  by rewrite elem_of_app.
Qed.

Lemma group_ids_head self i :
  ConvLearner.precompute self = true →
  i ∈ flat_map group_ids (ConvLearner.get_layer_groups self)
  ↔ i ∈ module_ids (ConvnetBuilder.fc_model (ConvLearner.models self)).
Proof.
  intros Hpre.
  unfold ConvLearner.get_layer_groups, ConvnetBuilder.get_layer_groups.
  rewrite Hpre. cbn. by rewrite app_nil_r.
Qed.

(** The last of a learner's layer groups is the head, in either mode. *)
Lemma last_group_ids self i :
  i ∈ flat_map group_ids (py_slice_from (ConvLearner.get_layer_groups self) (-1))
  ↔ i ∈ module_ids (ConvnetBuilder.fc_model (ConvLearner.models self)).
Proof.
  unfold ConvLearner.get_layer_groups.
  destruct (ConvLearner.precompute self).
  - change (py_slice_from _ (-1))
      with [LGModule (ConvnetBuilder.fc_model (ConvLearner.models self))].
    cbn [flat_map group_ids]. by rewrite app_nil_r.
  - destruct (layer_groups_split (ConvLearner.models self)) as (Hg & _).
    rewrite Hg.
    change (py_slice_from _ (-1))
      with [LGModule (ConvnetBuilder.fc_model (ConvLearner.models self))].
    cbn [flat_map group_ids]. by rewrite app_nil_r.
Qed.

(** [freeze], in either mode: what is frozen afterwards. *)
Lemma freeze_frozen self w :
  ∃ w', ConvLearner.freeze self w = Ok (tt, w')
    ∧ calls w' = calls w ++ [CFreeze; CFreezeTo (-1)]
    ∧ disk w' = disk w
    ∧ ∀ i, i ∈ frozen w' ↔
           (i ∈ frozen w
            ∨ i ∈ flat_map group_ids (ConvLearner.get_layer_groups self))
           ∧ i ∉ module_ids
                   (ConvnetBuilder.fc_model (ConvLearner.models self)).
Proof.
  unfold ConvLearner.freeze. cbn [bind log modify].
  destruct (freeze_to_frozen self (-1) (set_calls (calls w ++ [CFreeze]) w))
    as (w' & Hrun & Hc & Hd & Hf).
  exists w'. split; [exact Hrun|].
  split; [rewrite Hc; cbn; by rewrite <-app_assoc|]. split; [exact Hd|].
  intros i. rewrite Hf, last_group_ids. reflexivity.
Qed.

(** X13: [freeze] is idempotent: a second [freeze] in a row leaves every
    trainable flag as the first one set it. *)
Theorem freeze_twice_is_freeze self w :
  ∃ w1 w2,
    ConvLearner.freeze self w = Ok (tt, w1)
    ∧ ConvLearner.freeze self w1 = Ok (tt, w2)
    ∧ frozen w2 = frozen w1.
Proof.
  destruct (freeze_frozen self w) as (w1 & Hrun1 & _ & _ & Hf1).
  destruct (freeze_frozen self w1) as (w2 & Hrun2 & _ & _ & Hf2).
  exists w1, w2. split; [exact Hrun1|]. split; [exact Hrun2|].
  apply set_eq. intros i. rewrite Hf2, Hf1. tauto.
Qed.

(** X14: on a learner whose [precompute] is off, [freeze] after
    [unfreeze] sets the trainable flags exactly as [freeze] alone does. *)
Theorem freeze_after_unfreeze_is_freeze self w :
  ConvLearner.precompute self = false →
  ∃ self' w1 w2 w3,
    ConvLearner.unfreeze self w = Ok (self', w1)
    ∧ ConvLearner.freeze self' w1 = Ok (tt, w2)
    ∧ ConvLearner.freeze self w = Ok (tt, w3)
    ∧ frozen w2 = frozen w3.
Proof.
  intros Hpre.
  destruct (unfreeze_frozen self w) as (w1 & Hrun1 & _ & Hf1).
  destruct (freeze_frozen (ConvLearner.set_precompute false self) w1)
    as (w2 & Hrun2 & _ & _ & Hf2).
  destruct (freeze_frozen self w) as (w3 & Hrun3 & _ & _ & Hf3).
  exists (ConvLearner.set_precompute false self), w1, w2, w3.
  split; [exact Hrun1|]. split; [exact Hrun2|]. split; [exact Hrun3|].
  apply set_eq. intros i. rewrite Hf2, Hf3, Hf1.
  assert (Hsame : ConvLearner.get_layer_groups
                    (ConvLearner.set_precompute false self)
                  = ConvLearner.get_layer_groups self)
    by (unfold ConvLearner.get_layer_groups; cbn; by rewrite Hpre).
  rewrite Hsame. cbn [ConvLearner.models ConvLearner.set_precompute].
  destruct (decide (i ∈ flat_map group_ids
                          (ConvLearner.get_layer_groups self))); tauto.
Qed.

(** X15: whether or not it caches activations, a construction that returns
    leaves the head trainable and the modules of the layer groups cut from
    [top_model] frozen, and sets [precompute] as asked. *)
Theorem init_freezes_all_but_head d models pc kwargs w l w' :
  init d models pc kwargs w = Ok (l, w') →
  ConvLearner.precompute l = pc
  ∧ ConvLearner.models l = models
  ∧ ConvLearner.data_ l = d
  ∧ ∀ i, i ∈ frozen w' ↔
         (i ∈ frozen w ∨ i ∈ flat_map module_ids (split_children models))
         ∧ i ∉ module_ids (ConvnetBuilder.fc_model models).
Proof.
  intros H.
  apply (init_inv forward from_arrays) in H
    as (self1 & w1 & Hsave & Hfreeze & ->).
  assert (Hself1 : ConvLearner.precompute self1 = false
                   ∧ ConvLearner.models self1 = models
                   ∧ ConvLearner.data_ self1 = d ∧ frozen w1 = frozen w).
  { destruct pc.
    - apply save_fc1_inv in Hsave
        as (n0 & n1 & n2 & u & _ & _ & _ & _ & _ & Hf & _ & _ & _ & -> & ->);
        [|apply configured_precompute].
      rewrite fill_arrays_frozen, Hf. unfold with_cache, configured.
      destruct (Data.is_reg d); [done|]. by destruct (ConvLearner.metrics _).
    - destruct Hsave as [-> ->]. unfold configured.
      destruct (Data.is_reg d); [done|]. by destruct (ConvLearner.metrics _). }
  destruct Hself1 as (Hpre & Hm & Hd & Hfr).
  destruct (freeze_frozen self1 w1) as (w2 & Hrun & _ & _ & Hf).
  rewrite Hrun in Hfreeze. injection Hfreeze as ->.
  split; [done|]. split; [done|]. split; [done|].
  intros i. rewrite Hf, (group_ids_full self1 i Hpre), Hm, Hfr. tauto.
Qed.

(** X16: [set_data] with [precompute] switches to the new data in cached
    mode, whatever the mode before: it unfreezes, caches, freezes and turns
    [precompute] on, so that afterwards [data] is the cache built for the
    new data, [model] is the head, the head is trainable and the modules
    of the layer groups cut from [top_model] are frozen. *)
Theorem set_data_caches_and_freezes self d w l w' :
  set_data self d true w = Ok (l, w') →
  ConvLearner.precompute l = true
  ∧ ConvLearner.data_ l = d
  ∧ ConvLearner.models l = ConvLearner.models self
  ∧ (∃ fc, ConvLearner.fc_data l = Some fc ∧ ConvLearner.data l = Ok fc)
  ∧ ConvLearner.model l = ConvnetBuilder.fc_model (ConvLearner.models self)
  ∧ (∀ i, i ∈ frozen w' ↔
          (i ∈ frozen w
           ∨ i ∈ flat_map module_ids (split_children (ConvLearner.models self)))
          ∧ i ∉ module_ids (ConvnetBuilder.fc_model (ConvLearner.models self)))
  ∧ ∃ mid,
      calls w' = calls w ++ [CSetData true; CUnfreeze; CFreezeTo 0; CSaveFc1]
                 ++ mid ++ [CFreeze; CFreezeTo (-1)]
      ∧ Forall is_cache_call mid.
Proof.
  unfold ConvLearner.set_data. cbn [bind log modify]. intros H.
  set (self1 := ConvLearner.set_data_ d self) in *.
  set (w0 := set_calls (calls w ++ [CSetData true]) w) in *.
  destruct (unfreeze_frozen self1 w0) as (w1 & Hun & Hc1 & Hf1).
  rewrite (bind_run _ _ _ _ _ Hun) in H.
  set (self2 := ConvLearner.set_precompute false self1) in *.
  inv_bind H as self3 w2 Hsave. inv_bind H as u w3 Hfreeze. destruct u.
  injection H as <- <-.
  apply save_fc1_inv in Hsave
    as (n0 & n1 & n2 & u & _ & H01 & H02 & H12 & Hcu & Hfu & _ & _ & _
        & Hw2 & Hself3); [|done].
  destruct (freeze_frozen self3 w2) as (w3' & Hrun & Hc3 & _ & Hf3).
  rewrite Hrun in Hfreeze. injection Hfreeze as ->.
  assert (Hpre3 : ConvLearner.precompute self3 = false) by by subst self3.
  assert (Hm3 : ConvLearner.models self3 = ConvLearner.models self)
    by by subst self3.
  split; [done|]. split; [by subst self3|]. split; [done|].
  split; [subst self3; by eexists|].
  split; [unfold ConvLearner.model; cbn; by rewrite Hm3|].
  split.
  - intros i. rewrite Hf3, (group_ids_full self3 i Hpre3), Hm3.
    rewrite Hw2, fill_arrays_frozen, Hfu, Hf1.
    assert (Hg : i ∈ flat_map group_ids (ConvLearner.get_layer_groups self1)
                 → i ∈ flat_map module_ids
                         (split_children (ConvLearner.models self))
                   ∨ i ∈ module_ids
                           (ConvnetBuilder.fc_model (ConvLearner.models self))).
    { destruct (ConvLearner.precompute self1) eqn:Hp.
      - rewrite (group_ids_head self1 i Hp). by right.
      - by rewrite (group_ids_full self1 i Hp). }
    cbn [frozen set_calls] in *.
    destruct (decide (i ∈ flat_map group_ids
                            (ConvLearner.get_layer_groups self1))); tauto.
  - exists (CGetActivations false :: predict_calls (ConvLearner.data_ self2)
                                      n0 n1 n2 u).
    split; [|constructor; [done|apply predict_calls_cache]].
    rewrite Hc3, Hw2, (fill_arrays_calls _ _ _ n0 n1 n2 H01 H02 H12), Hcu, Hc1.
    subst w0. cbn [calls set_calls]. by rewrite <-!app_assoc.
Qed.

(** X17: [set_data] without [precompute] stores the new data and freezes,
    and leaves the [precompute] flag alone.  On a learner in cached mode
    the new data is therefore not what [data] returns: [data] is still the
    cache of the former data, and only the head's flags are touched. *)
Theorem set_data_plain_keeps_mode self d w :
  ∃ w',
    set_data self d false w = Ok (ConvLearner.set_data_ d self, w')
    ∧ calls w' = calls w ++ [CSetData false; CFreeze; CFreezeTo (-1)]
    ∧ (ConvLearner.precompute self = false →
       ConvLearner.data (ConvLearner.set_data_ d self) = Ok d)
    ∧ (ConvLearner.precompute self = true →
       ConvLearner.data (ConvLearner.set_data_ d self) = ConvLearner.data self
       ∧ ConvLearner.data_ (ConvLearner.set_data_ d self) = d
       ∧ ∀ i, i ∈ frozen w' ↔
              i ∈ frozen w
              ∧ i ∉ module_ids
                      (ConvnetBuilder.fc_model (ConvLearner.models self))).
Proof.
  unfold ConvLearner.set_data. cbn [bind log modify].
  set (self1 := ConvLearner.set_data_ d self).
  destruct (freeze_frozen self1 (set_calls (calls w ++ [CSetData false]) w))
    as (w' & Hrun & Hc & _ & Hf).
  rewrite (bind_run _ _ _ _ _ Hrun). exists w'.
  split; [reflexivity|].
  split; [rewrite Hc; cbn; by rewrite <-app_assoc|].
  split; [intros Hpre; unfold ConvLearner.data; cbn; by rewrite Hpre|].
  intros Hpre. split; [unfold ConvLearner.data; cbn; by rewrite Hpre|].
  split; [done|]. intros i.
  rewrite Hf, (group_ids_head self1 i Hpre). cbn. tauto.
Qed.

End LearnerEdges.

(** X18: after [get_activations] the learner holds three handles, all
    different: the arrays of the training, the validation and the test
    activations never share a directory. *)
Theorem activation_handles_distinct self force w self' w' :
  ConvLearner.get_activations self force w = Ok (self', w') →
  ∃ n0 n1 n2,
    ConvLearner.activations self' = Some [n0; n1; n2]
    ∧ NoDup [n0; n1; n2]
    ∧ is_Some (disk w' !! n0) ∧ is_Some (disk w' !! n1)
    ∧ is_Some (disk w' !! n2).
Proof.
  intros H.
  destruct (ConvLearner.data self) as [d|e] eqn:Hd;
    [|unfold ConvLearner.get_activations in H; cbn [bind log modify] in H;
      unfold bind, lift in H; by rewrite Hd in H].
  destruct (activation_names_distinct self d)
    as (n0 & n1 & n2 & Hn & H01 & H02 & H12).
  rewrite (get_activations_unfold self force w d n0 n1 n2 Hd Hn) in H.
  exists n0, n1, n2.
  assert (Hnd : NoDup [n0; n1; n2]).
  { repeat constructor; set_solver. }
  destruct (bool_decide (is_Some (disk w !! n0)) && negb force).
  - cbn in H. unfold bind, bcolz_open in H. cbn in H.
    destruct (disk w !! n0) as [r0|] eqn:E0; [|done]. cbn in H.
    destruct (disk w !! n1) as [r1|] eqn:E1; [|done]. cbn in H.
    destruct (disk w !! n2) as [r2|] eqn:E2; [|done]. cbn in H.
    injection H as <- <-. cbn. rewrite E0, E1, E2.
    by repeat split.
  - assert (Hrun : ConvLearner.set_activations (Some [n0; n1; n2]) self = self'
                   ∧ created n0 n1 n2 force w = w').
    { unfold bind in H. cbn in H. by injection H as <- <-. }
    destruct Hrun as [<- <-]. split; [done|]. split; [done|].
    rewrite !created_lookup.
    rewrite !decide_True by set_solver. by repeat split.
Qed.

Lemma configured_fields d models kwargs :
  ConvLearner.crit (configured d models kwargs)
  = Some (task_head (Data.is_multi d) (Data.is_reg d)).2
  ∧ ConvLearner.models (configured d models kwargs) = models
  ∧ ConvLearner.data_ (configured d models kwargs) = d
  ∧ ConvLearner.precompute (configured d models kwargs) = false.
Proof.
  unfold configured, task_head.
  destruct (Data.is_reg d), (Data.is_multi d); cbn;
    try destruct (ConvLearner.kw_metrics kwargs); done.
Qed.

Section PretrainedEdges.
Variable forward : Module -> Tensor -> Tensor.
Variable from_arrays :
  string -> string * list Z -> string * list Z -> Z -> list string ->
  option string -> World -> Data.t.
Variable create : Arch -> bool -> M Module.
Variable cut_model : Module -> Z -> list Module.
Variable num_features : list Module -> option Z.

Local Abbreviation pretrained :=
  (ConvLearner.pretrained forward from_arrays create cut_model num_features).

(** X19: the learner [pretrained] returns has a head made for its data:
    the last [Linear] layer has [data.c] outputs, and the final activation
    and the loss go together ([LogSoftmax] with [nll_loss], [Sigmoid] with
    [binary_cross_entropy], none with [l1_loss]); this whether or not the
    activations are precomputed. *)
Theorem pretrained_head_matches_data f d dp xf xc pc kwargs w l w' :
  pretrained f d dp xf xc pc kwargs w = Ok (l, w') →
  let task := task_head (Data.is_multi d) (Data.is_reg d) in
  (∃ body ni,
     map kind_of (children (ConvnetBuilder.fc_model (ConvLearner.models l)))
     = body ++ Linear ni (Data.c d) :: task.1)
  ∧ ConvLearner.crit l = Some task.2
  ∧ ConvnetBuilder.last_layer_size (ConvLearner.models l) = Data.c d
  ∧ ConvLearner.data_ l = d
  ∧ ConvLearner.precompute l = pc.
Proof.
  intros H task. unfold ConvLearner.pretrained in H.
  inv_bind H as b w0 Hb.
  destruct (init_Ok _ _ _ _ _ _ _ _ _ _ _ _ _ Hb)
    as (net & w1 & nf & pool & flat & top & fcl & w2 & fcm & w3 & _ & _ & _
        & _ & _ & _ & Hfc & _ & Hch & Hbeq).
  destruct (get_fc_layers_of_final _ _ _ _ _ _ _ _ _ Hfc) as (body & ni & Hk).
  destruct (init_inv _ _ _ _ _ _ _ _ _ H) as (self1 & u & Hs & _ & ->).
  destruct (configured_fields d b kwargs) as (Hcrit & Hmod & Hdat & Hpre).
  assert (Hself1 : ConvLearner.crit self1 = Some task.2
                   ∧ ConvLearner.models self1 = b
                   ∧ ConvLearner.data_ self1 = d).
  { destruct pc.
    - apply save_fc1_inv in Hs
        as (n0 & n1 & n2 & v & _ & _ & _ & _ & _ & _ & _ & _ & _ & _ & ->);
        [|done].
      by cbn.
    - by destruct Hs as [-> _]. }
  destruct Hself1 as (Hc1 & Hm1 & Hd1). cbn.
  rewrite Hm1. split; [|by rewrite Hbeq].
  exists body, ni. rewrite Hbeq. cbn. rewrite Hch, Hk.
  unfold task, task_head, final_kinds.
  by destruct (Data.is_reg d), (Data.is_multi d).
Qed.
End PretrainedEdges.

(** * The further properties on the small examples *)

(** X1 with three probabilities for a head of two blocks: the one in the
    middle is not used. *)
Lemma head_blocks_by_dropout_list_witness :
  ∃ b w',
    Cases.with_dropout [0.125; 0.75; 0.375]%float Tiny.world = Ok (b, w')
    ∧ map kind_of (children (ConvnetBuilder.fc_model b))
      = [BatchNorm1d 1024; Dropout 0.125; Linear 1024 512; ReLU;
         BatchNorm1d 512; Dropout 0.375; Linear 512 2; LogSoftmax].
Proof.
  destruct (Cases.with_dropout [0.125; 0.75; 0.375]%float Tiny.world)
    as [[b w']|e] eqn:E; [|vm_compute in E; discriminate].
  destruct (head_blocks_by_dropout_list Tiny.create Tiny.cut_model
              Tiny.num_features (other_arch "tiny") 2 false false
              (Some (ConvnetBuilder.DropList [0.125; 0.75; 0.375]%float))
              None 1 Tiny.world b w' E)
    as (_ & _ & _ & _ & pl & Hlast & _ & Hk).
  exists b, w'. split; [reflexivity|].
  vm_compute in E. injection E as <- <-.
  injection Hlast as <-. exact Hk.
Defined.

(** X2 on the small builder, given an empty list. *)
Lemma empty_dropout_list_raises_witness :
  Cases.with_dropout [] Tiny.world = Raise IndexError.
Proof.
  destruct (Tiny.create (other_arch "tiny") true Tiny.world)
    as [[net w1]|e] eqn:E; [|discriminate].
  exact (empty_dropout_list_raises Tiny.create Tiny.cut_model
           Tiny.num_features (other_arch "tiny") 2 false false None 1
           Tiny.world net w1 1024 E eq_refl).
Defined.

(** X3 on the small builder, given the number 1.5. *)
Lemma refused_dropout_number_raises_witness :
  Cases.with_number 1.5%float Tiny.world = Raise ValueError.
Proof.
  destruct (Tiny.create (other_arch "tiny") true Tiny.world)
    as [[net w1]|e] eqn:E; [|discriminate].
  exact (refused_dropout_number_raises Tiny.create Tiny.cut_model
           Tiny.num_features (other_arch "tiny") 2 false false 1.5%float
           None 1 Tiny.world net w1 1024 E eq_refl eq_refl).
Defined.

(** X4 on the small builder: 512 features found, 1024 at the head's
    input; and with a [num_features] that finds nothing. *)
Lemma features_from_table_or_backbone_witness :
  (∃ b w', Tiny.builder Tiny.world = Ok (b, w') ∧ ConvnetBuilder.nf b = 1024)
  ∧ ConvnetBuilder.__init__ Tiny.create Tiny.cut_model Cases.no_features
      (other_arch "tiny") 2 false false None None 1 Tiny.world
    = Raise TypeError.
Proof.
  destruct (Tiny.create (other_arch "tiny") true Tiny.world)
    as [[net w1]|e] eqn:E; [|discriminate].
  split.
  - destruct (Tiny.builder Tiny.world) as [[b w']|e] eqn:Eb; [|discriminate].
    destruct (features_from_table_or_backbone Tiny.create Tiny.cut_model
                Tiny.num_features (other_arch "tiny") 2 false false None None
                1 Tiny.world net w1 E) as [_ Hnf].
    specialize (Hnf b w' Eb). exists b, w'. split; [reflexivity|].
    by injection Hnf as <-.
  - destruct (features_from_table_or_backbone Tiny.create Tiny.cut_model
                Cases.no_features (other_arch "tiny") 2 false false None None
                1 Tiny.world net w1 E) as [Hraise _].
    exact (Hraise eq_refl).
Defined.

(** X5 on the small builder. *)
Lemma builder_models_share_layers_witness :
  ∃ b w',
    Tiny.builder Tiny.world = Ok (b, w')
    ∧ children (ConvnetBuilder.model b)
      = children (ConvnetBuilder.top_model b)
        ++ children (ConvnetBuilder.fc_model b)
    ∧ ConvnetBuilder.n_fc b = 8%nat.
Proof.
  destruct (Tiny.builder Tiny.world) as [[b w']|e] eqn:E; [|discriminate].
  destruct (builder_models_share_layers Tiny.create Tiny.cut_model
              Tiny.num_features (other_arch "tiny") 2 false false None None
              1 Tiny.world b w' E)
    as (_ & Hch & Hn & _).
  exists b, w'. split; [reflexivity|]. split; [exact Hch|].
  rewrite Hn. vm_compute in E. injection E as <- <-. reflexivity.
Defined.

(** X6 on the small builder, whose architecture is not in [model_meta]. *)
Lemma unknown_arch_one_backbone_group_witness :
  ∃ b w',
    Tiny.builder Tiny.world = Ok (b, w')
    ∧ ConvnetBuilder.lr_cut b = 0
    ∧ ConvnetBuilder.get_layer_groups b false
      = [LGList []; LGList (Tiny.backbone ++ Tiny.adapter);
         LGModule (Mod 16 Sequential Tiny.head)].
Proof.
  destruct (Tiny.builder Tiny.world) as [[b w']|e] eqn:E; [|discriminate].
  destruct (unknown_arch_one_backbone_group Tiny.create Tiny.cut_model
              Tiny.num_features (other_arch "tiny") 2 false false None None
              1 Tiny.world b w' eq_refl E)
    as (Hcut & Hg & _).
  exists b, w'. split; [reflexivity|]. split; [exact Hcut|].
  rewrite Hg. vm_compute in E. injection E as <- <-. reflexivity.
Defined.


(** X8 on the small learner, with nothing on disk. *)
Lemma get_activations_creates_empty_witness :
  ∃ self' w',
    ConvLearner.get_activations Tiny.plain false Tiny.built = Ok (self', w')
    ∧ ConvLearner.activations self' = Some [Cases.n0; Cases.n1; Cases.n2]
    ∧ disk w' !! Cases.n0 = Some [] ∧ disk w' !! Cases.n1 = Some []
    ∧ disk w' !! Cases.n2 = Some [].
Proof.
  destruct (ConvLearner.get_activations Tiny.plain false Tiny.built)
    as [[self' w']|e] eqn:E; [|vm_compute in E; discriminate].
  destruct (get_activations_creates_empty Tiny.plain false Tiny.built
              self' w' Cases.n0 Cases.n1 Cases.n2 eq_refl eq_refl
              (or_intror eq_refl) E)
    as (Ha & Hd).
  exists self', w'. split; [reflexivity|]. split; [exact Ha|].
  rewrite !Hd. by vm_compute.
Defined.


(** X10 on the small learner: two images to train on, one to validate, no
    test set. *)
Lemma save_fc1_without_cache_witness :
  ∃ self' w',
    ConvLearner.save_fc1 Tiny.forward Tiny.from_arrays Tiny.plain Tiny.built
    = Ok (self', w')
    ∧ calls w' = [CSaveFc1; CGetActivations false;
                  CPredictToBcolz Cases.n0; CPredictToBcolz Cases.n1].
Proof.
  destruct (ConvLearner.save_fc1 Tiny.forward Tiny.from_arrays Tiny.plain
              Tiny.built) as [[self' w']|e] eqn:E;
    [|vm_compute in E; discriminate].
  destruct (save_fc1_without_cache Tiny.forward Tiny.from_arrays Tiny.plain
              Tiny.built self' w' Cases.n0 Cases.n1 Cases.n2 eq_refl eq_refl
              eq_refl E)
    as (_ & _ & Hc & _).
  exists self', w'. split; [reflexivity|]. exact Hc.
Defined.

(** X11 on the small learner. *)
Lemma save_fc1_frame_witness :
  ∃ self' w',
    ConvLearner.save_fc1 Tiny.forward Tiny.from_arrays Tiny.plain Tiny.built
    = Ok (self', w')
    ∧ frozen w' = ∅
    ∧ ConvLearner.models self' = Tiny.models
    ∧ ConvLearner.data_ self' = Tiny.data.
Proof.
  destruct (ConvLearner.save_fc1 Tiny.forward Tiny.from_arrays Tiny.plain
              Tiny.built) as [[self' w']|e] eqn:E;
    [|vm_compute in E; discriminate].
  destruct (save_fc1_frame Tiny.forward Tiny.from_arrays Tiny.plain
              Tiny.built self' w' eq_refl E)
    as (Hf & _ & Hd & Hm & _).
  exists self', w'. split; [reflexivity|]. split; [exact Hf|].
  split; [exact Hm|exact Hd].
Defined.

Lemma other_data_same_shape : same_shape Tiny.data Cases.other_data.
Proof. repeat split. intros dl' [=]. Qed.

(** X12 on the small learner, given other images after the caching. *)
Lemma save_fc1_reuses_cache_of_other_data_witness :
  ∃ self1 w1 self2 w2,
    ConvLearner.save_fc1 Tiny.forward Tiny.from_arrays Tiny.plain Tiny.built
    = Ok (self1, w1)
    ∧ ConvLearner.save_fc1 Tiny.forward Tiny.from_arrays
        (ConvLearner.set_data_ Cases.other_data self1) w1
      = Ok (self2, w2)
    ∧ ConvLearner.data_ self2 = Cases.other_data
    ∧ disk w2 = disk w1.
Proof.
  destruct (ConvLearner.save_fc1 Tiny.forward Tiny.from_arrays Tiny.plain
              Tiny.built) as [[self1 w1]|e] eqn:E;
    [|vm_compute in E; discriminate].
  destruct (save_fc1_reuses_cache_of_other_data Tiny.forward Tiny.from_arrays
              Tiny.plain Tiny.built self1 w1 Cases.other_data eq_refl
              tiny_loaders_cover other_data_same_shape E)
    as (self2 & w2 & Hrun & Hd & _ & Hdisk & _).
  exists self1, w1, self2, w2.
  split; [reflexivity|]. split; [exact Hrun|]. split; [exact Hd|exact Hdisk].
Defined.

(** X14 on the small learner. *)
Lemma freeze_after_unfreeze_is_freeze_witness :
  ∃ self' w1 w2 w3,
    ConvLearner.unfreeze Tiny.plain Tiny.built = Ok (self', w1)
    ∧ ConvLearner.freeze self' w1 = Ok (tt, w2)
    ∧ ConvLearner.freeze Tiny.plain Tiny.built = Ok (tt, w3)
    ∧ frozen w2 = frozen w3.
Proof.
  exact (freeze_after_unfreeze_is_freeze Tiny.plain Tiny.built eq_refl).
Defined.

(** X15 on the small learner: the three backbone layers and the adapter
    are frozen, the head is not. *)
Lemma init_freezes_all_but_head_witness :
  ∃ l w,
    Tiny.learner Tiny.built = Ok (l, w)
    ∧ (∀ i, i ∈ [0; 1; 2; 5; 6]%nat → i ∈ frozen w)
    ∧ (∀ i, i ∈ module_ids (Mod 16 Sequential Tiny.head) → i ∉ frozen w).
Proof.
  destruct (Tiny.learner Tiny.built) as [[l w]|e] eqn:E;
    [|vm_compute in E; discriminate].
  destruct (init_freezes_all_but_head Tiny.forward Tiny.from_arrays Tiny.data
              Tiny.models true Tiny.kwargs Tiny.built l w E)
    as (_ & _ & _ & Hf).
  exists l, w. split; [reflexivity|]. split.
  - intros i Hi. apply Hf.
    repeat (apply elem_of_cons in Hi as [->|Hi]);
      [..|by apply elem_of_nil in Hi];
      (split; [right|]; apply (bool_decide_unpack _); by vm_compute).
  - intros i Hi Hfr. apply Hf in Hfr as [_ Hn]. by apply Hn.
Defined.

(** X16 on the small learner, given other images. *)
Lemma set_data_caches_and_freezes_witness :
  ∃ l w,
    ConvLearner.set_data Tiny.forward Tiny.from_arrays Tiny.plain
      Cases.other_data true Tiny.built = Ok (l, w)
    ∧ ConvLearner.precompute l = true
    ∧ ConvLearner.data_ l = Cases.other_data
    ∧ ConvLearner.model l = Mod 16 Sequential Tiny.head.
Proof.
  destruct (ConvLearner.set_data Tiny.forward Tiny.from_arrays Tiny.plain
              Cases.other_data true Tiny.built) as [[l w]|e] eqn:E;
    [|vm_compute in E; discriminate].
  destruct (set_data_caches_and_freezes Tiny.forward Tiny.from_arrays
              Tiny.plain Cases.other_data Tiny.built l w E)
    as (Hp & Hd & _ & _ & Hm & _).
  exists l, w. split; [reflexivity|]. split; [exact Hp|].
  split; [exact Hd|exact Hm].
Defined.

(** X18 on the small learner. *)
Lemma activation_handles_distinct_witness :
  ∃ self' w' n0 n1 n2,
    ConvLearner.get_activations Tiny.plain false Tiny.built = Ok (self', w')
    ∧ ConvLearner.activations self' = Some [n0; n1; n2]
    ∧ NoDup [n0; n1; n2].
Proof.
  destruct (ConvLearner.get_activations Tiny.plain false Tiny.built)
    as [[self' w']|e] eqn:E; [|vm_compute in E; discriminate].
  destruct (activation_handles_distinct Tiny.plain false Tiny.built self' w' E)
    as (n0 & n1 & n2 & Ha & Hnd & _).
  exists self', w', n0, n1, n2.
  split; [reflexivity|]. split; [exact Ha|exact Hnd].
Defined.

(** X19 on the small learner: two classes, a single-label task. *)
Lemma pretrained_head_matches_data_witness :
  ∃ l w body ni,
    ConvLearner.pretrained Tiny.forward Tiny.from_arrays Tiny.create
      Tiny.cut_model Tiny.num_features (other_arch "tiny") Tiny.data None
      None 1 true Tiny.kwargs Tiny.world = Ok (l, w)
    ∧ map kind_of (children (ConvnetBuilder.fc_model (ConvLearner.models l)))
      = body ++ [Linear ni 2; LogSoftmax]
    ∧ ConvLearner.crit l = Some ConvLearner.nll_loss.
Proof.
  destruct (ConvLearner.pretrained Tiny.forward Tiny.from_arrays Tiny.create
              Tiny.cut_model Tiny.num_features (other_arch "tiny") Tiny.data
              None None 1 true Tiny.kwargs Tiny.world)
    as [[l w]|e] eqn:E; [|vm_compute in E; discriminate].
  destruct (pretrained_head_matches_data Tiny.forward Tiny.from_arrays
              Tiny.create Tiny.cut_model Tiny.num_features
              (other_arch "tiny") Tiny.data None None 1 true Tiny.kwargs
              Tiny.world l w E)
    as ((body & ni & Hk) & Hc & _).
  exists l, w, body, ni. split; [reflexivity|]. split; [exact Hk|exact Hc].
Defined.
